(** * Ollama chat front end (streamlit-front-end): a shallow embedding

    The development follows the three front-end scripts [app.py],
    [app-v2.py] and [app-v4.py].  Python values that travel through the
    scripts (decoded JSON, request bodies, the conversation held in the
    session state) are modelled by one type [json]; generators are modelled
    by the list of items they yield together with the way they end; the HTTP
    library is modelled by the outcome of each request. *)

From Stdlib Require Import List NArith ZArith String Ascii Bool Lia.
From Stdlib Require Import DecimalString.
Import ListNotations.

Set Implicit Arguments.
Set Warnings "-register-all".

(** ** Python strings *)

(** A Python [str] is a sequence of Unicode code points. *)
Definition pystr := list N.

(** A literal of the source text, written as a Rocq string. *)
Definition lit (s : string) : pystr :=
  map N_of_ascii (list_ascii_of_string s).

(** The same, with every apostrophe (39) standing for a quotation mark (34):
    the JSON lines of the wire format are written that way below. *)
Definition dq (s : string) : pystr :=
  map (fun c => if N.eqb c 39 then 34%N else c) (lit s).

Fixpoint str_eqb (a b : pystr) : bool :=
  match a, b with
  | [], [] => true
  | x :: a', y :: b' => N.eqb x y && str_eqb a' b'
  | _, _ => false
  end.

(** [s.startswith(p)] *)
Fixpoint startswith (p s : pystr) : bool :=
  match p, s with
  | [], _ => true
  | x :: p', y :: s' => N.eqb x y && startswith p' s'
  | _ :: _, [] => false
  end.

(** [p in s] for two strings: [p] occurs somewhere in [s]. *)
Fixpoint str_contains (p s : pystr) : bool :=
  startswith p s ||
  match s with
  | [] => false
  | _ :: s' => str_contains p s'
  end.

(** [str.isspace] on one code point: the characters Python's [strip()]
    removes when called without argument. *)
Definition py_isspace (c : N) : bool :=
  ((9 <=? c) && (c <=? 13) || (28 <=? c) && (c <=? 32) ||
   (c =? 133) || (c =? 160) || (c =? 5760) ||
   (8192 <=? c) && (c <=? 8202) || (c =? 8232) || (c =? 8233) ||
   (c =? 8239) || (c =? 8287) || (c =? 12288))%N.

Fixpoint lstrip (s : pystr) : pystr :=
  match s with
  | c :: s' => if py_isspace c then lstrip s' else s
  | [] => []
  end.

Definition rstrip (s : pystr) : pystr := rev (lstrip (rev s)).

(** [s.strip()] *)
Definition strip (s : pystr) : pystr := rstrip (lstrip s).

(** [s.rstrip("/")] *)
Fixpoint lstrip_char (ch : N) (s : pystr) : pystr :=
  match s with
  | c :: s' => if N.eqb c ch then lstrip_char ch s' else s
  | [] => []
  end.

Definition rstrip_char (ch : N) (s : pystr) : pystr :=
  rev (lstrip_char ch (rev s)).

(** ** Python values *)

(** A float is kept as the decimal numeral it was read from
    ([(-1)^neg * m * 10^e]); no arithmetic is done on floats by the
    scripts, only truth tests. *)
Inductive pyfloat :=
| FDec (neg : bool) (m : N) (e : Z)
| FInf (neg : bool)
| FNaN.

(** The values [json.loads] produces, which are also the values the
    scripts build and send: [None], [bool], [int], [float], [str], [list]
    and [dict].  A dict is kept in insertion order with unique keys. *)
Inductive json :=
| JNull
| JBool (b : bool)
| JInt (z : Z)
| JFloat (f : pyfloat)
| JStr (s : pystr)
| JArr (l : list json)
| JObj (d : list (pystr * json)).

Definition dict := list (pystr * json).

(** [d.get(k)] as an option *)
Fixpoint dict_get (k : pystr) (d : dict) : option json :=
  match d with
  | [] => None
  | (k', v) :: d' => if str_eqb k k' then Some v else dict_get k d'
  end.

(** [d[k] = v]: an existing key keeps its position and takes the new value *)
Fixpoint dict_set (k : pystr) (v : json) (d : dict) : dict :=
  match d with
  | [] => [(k, v)]
  | (k', v') :: d' =>
      if str_eqb k k' then (k', v) :: d' else (k', v') :: dict_set k v d'
  end.

(** The binary64 nearest to [m * 10^e] is zero exactly when
    [m * 10^e <= 2^-1075] (ties go to the even neighbour, which is zero). *)
Definition float_is_zero (f : pyfloat) : bool :=
  match f with
  | FDec _ m e =>
      (m =? 0)%N ||
      (if (e <? 0)%Z
       then (Z.of_N m * 2 ^ 1075 <=? 10 ^ (- e))%Z
       else false)
  | FInf _ => false
  | FNaN => false
  end.

(** Python's truth value of an object, as used by [if x:] *)
Definition truthy (v : json) : bool :=
  match v with
  | JNull => false
  | JBool b => b
  | JInt z => negb (z =? 0)%Z
  | JFloat f => negb (float_is_zero f)
  | JStr s => match s with [] => false | _ => true end
  | JArr l => match l with [] => false | _ => true end
  | JObj d => match d with [] => false | _ => true end
  end.

(** ** [json.loads] *)

(** The decoder of the standard library, in its default (strict) mode: the
    scanner of [json/scanner.py] and the string, object and array parsers
    of [json/decoder.py].  Every error of the decoder is a
    [JSONDecodeError].  Integers are unbounded (the interpreter's limit on
    the number of digits of an integer literal is not modelled). *)
Module Json.

Local Open Scope N_scope.

Inductive scan (A : Type) :=
| OutOfFuel
| DecodeError                   (* JSONDecodeError *)
| Ok (v : A) (rest : pystr).
Arguments OutOfFuel {A}.
Arguments DecodeError {A}.

Definition is_ws (c : N) : bool :=
  (c =? 32) || (c =? 9) || (c =? 10) || (c =? 13).

Fixpoint skip_ws (s : pystr) : pystr :=
  match s with
  | c :: s' => if is_ws c then skip_ws s' else s
  | [] => []
  end.

(** The next character must be [c]. *)
Definition expect (c : N) (s : pystr) : option pystr :=
  match s with
  | x :: r => if x =? c then Some r else None
  | [] => None
  end.

Definition hex_digit (c : N) : option N :=
  if (48 <=? c) && (c <=? 57) then Some (c - 48)
  else if (97 <=? c) && (c <=? 102) then Some (c - 87)
  else if (65 <=? c) && (c <=? 70) then Some (c - 55)
  else None.

Definition hex4 (a b c d : N) : option N :=
  match hex_digit a, hex_digit b, hex_digit c, hex_digit d with
  | Some x, Some y, Some z, Some w => Some (((x * 16 + y) * 16 + z) * 16 + w)
  | _, _, _, _ => None
  end.

(** The one-letter escapes: quote, backslash, slash, b, f, n, r, t *)
Definition backslash (c : N) : option N :=
  if c =? 34 then Some 34
  else if c =? 92 then Some 92
  else if c =? 47 then Some 47
  else if c =? 98 then Some 8
  else if c =? 102 then Some 12
  else if c =? 110 then Some 10
  else if c =? 114 then Some 13
  else if c =? 116 then Some 9
  else None.

Definition low_surrogate (s : pystr) : option (N * pystr) :=
  match s with
  | bs :: u :: a :: b :: c :: d :: r =>
      if (bs =? 92) && (u =? 117) then
        match hex4 a b c d with
        | Some u2 =>
            if (56320 <=? u2) && (u2 <=? 57343) then Some (u2, r) else None
        | None => None
        end
      else None
  | _ => None
  end.

(** [scanstring]: the text after an opening quotation mark, up to the
    closing one. *)
Fixpoint scanstring (s : pystr) : option (pystr * pystr) :=
  match s with
  | [] => None
  | c :: r =>
      if c =? 34 then Some ([], r)
      else if c =? 92 then
        match r with
        | [] => None
        | esc :: r1 =>
            if esc =? 117 then
              match r1 with
              | a :: b :: c' :: d :: r4 =>
                  match hex4 a b c' d with
                  | None => None
                  | Some u =>
                      match
                        (if (55296 <=? u) && (u <=? 56319)
                         then low_surrogate r4 else None)
                      with
                      | Some (u2, _) =>
                          match r4 with
                          | _ :: _ :: _ :: _ :: _ :: _ :: r10 =>
                              match scanstring r10 with
                              | Some (t, rest) =>
                                  Some ((65536 + ((u - 55296) * 1024 + (u2 - 56320))) :: t, rest)
                              | None => None
                              end
                          | _ => None
                          end
                      | None =>
                          match scanstring r4 with
                          | Some (t, rest) => Some (u :: t, rest)
                          | None => None
                          end
                      end
                  end
              | _ => None
              end
            else
              match backslash esc with
              | None => None
              | Some ch =>
                  match scanstring r1 with
                  | Some (t, rest) => Some (ch :: t, rest)
                  | None => None
                  end
              end
        end
      else if c <? 32 then None
      else
        match scanstring r with
        | Some (t, rest) => Some (c :: t, rest)
        | None => None
        end
  end.

Definition is_digit (c : N) : bool := (48 <=? c) && (c <=? 57).

(** The longest run of digits at the head of [s], read in base ten on top
    of [acc]; the number of digits read; the rest. *)
Fixpoint digits (acc : N) (n : Z) (s : pystr) : N * Z * pystr :=
  match s with
  | c :: s' => if is_digit c then digits (acc * 10 + (c - 48)) (n + 1)%Z s'
               else (acc, n, s)
  | [] => (acc, n, [])
  end.

(** [NUMBER_RE]: an optional minus sign; a zero, or a non-zero digit and
    any digits; optionally a point and one or more digits; optionally e or E,
    an optional sign and one or more digits.  A fraction or an exponent that
    has no digit is left unread. *)
Definition number_int (s : pystr) : option (N * pystr) :=
  match s with
  | c :: s' =>
      if c =? 48 then Some (0, s')
      else if is_digit c then let '(n, _, r) := digits 0 0%Z s in Some (n, r)
      else None
  | [] => None
  end.

Definition number_frac (ip : N) (s : pystr) : option (N * Z * pystr) :=
  match s with
  | p :: ((d :: _) as s') =>
      if (p =? 46) && is_digit d then Some (digits ip 0%Z s') else None
  | _ => None
  end.

Definition number_exp (s : pystr) : option (Z * pystr) :=
  match s with
  | e :: s' =>
      if (e =? 101) || (e =? 69) then
        match s' with
        | sg :: s'' =>
            if (sg =? 45) || (sg =? 43) then
              match s'' with
              | d :: _ =>
                  if is_digit d
                  then let '(x, _, r) := digits 0 0%Z s'' in
                       Some (if sg =? 45 then (- Z.of_N x)%Z else Z.of_N x, r)
                  else None
              | [] => None
              end
            else if is_digit sg
            then let '(x, _, r) := digits 0 0%Z s' in Some (Z.of_N x, r)
            else None
        | [] => None
        end
      else None
  | [] => None
  end.

(** A numeral with neither fraction nor exponent is an [int], any other is
    a [float]. *)
Definition number_body (neg : bool) (s1 : pystr) : option (json * pystr) :=
  match number_int s1 with
  | None => None
  | Some (ip, s2) =>
      match number_frac ip s2, number_exp s2 with
      | None, None =>
          Some (JInt (if neg then (- Z.of_N ip)%Z else Z.of_N ip), s2)
      | None, Some (ex, s3) => Some (JFloat (FDec neg ip ex), s3)
      | Some (m, fl, s3), _ =>
          match number_exp s3 with
          | None => Some (JFloat (FDec neg m (- fl)), s3)
          | Some (ex, s4) => Some (JFloat (FDec neg m (ex - fl)), s4)
          end
      end
  end.

Definition match_number (s : pystr) : option (json * pystr) :=
  match s with
  | c :: s' => if c =? 45 then number_body true s' else number_body false s
  | [] => None
  end.

(** [scan_once], [JSONObject] and [JSONArray].  [JSONObject_pairs] starts
    just after the quotation mark that opens a key, [JSONArray_items] at
    the first character of an item. *)
Fixpoint scan_once (fuel : nat) (s : pystr) {struct fuel} : scan json :=
  match fuel with
  | O => OutOfFuel
  | S fuel' =>
      match s with
      | [] => DecodeError
      | c :: r =>
          if c =? 34 then
            match scanstring r with
            | Some (t, rest) => Ok (JStr t) rest
            | None => DecodeError
            end
          else if c =? 123 then
            match skip_ws r with
            | x :: r' =>
                if x =? 125 then Ok (JObj []) r'
                else if x =? 34 then JSONObject_pairs fuel' [] r'
                else DecodeError
            | [] => DecodeError
            end
          else if c =? 91 then
            match skip_ws r with
            | x :: r' =>
                if x =? 93 then Ok (JArr []) r'
                else JSONArray_items fuel' [] (x :: r')
            | [] => DecodeError
            end
          else if startswith (lit "null") s then Ok JNull (skipn 4 s)
          else if startswith (lit "true") s then Ok (JBool true) (skipn 4 s)
          else if startswith (lit "false") s then Ok (JBool false) (skipn 5 s)
          else
            match match_number s with
            | Some (v, rest) => Ok v rest
            | None =>
                if startswith (lit "NaN") s then Ok (JFloat FNaN) (skipn 3 s)
                else if startswith (lit "Infinity") s
                then Ok (JFloat (FInf false)) (skipn 8 s)
                else if startswith (lit "-Infinity") s
                then Ok (JFloat (FInf true)) (skipn 9 s)
                else DecodeError
            end
      end
  end

with JSONObject_pairs (fuel : nat) (acc : dict) (s : pystr) {struct fuel}
  : scan json :=
  match fuel with
  | O => OutOfFuel
  | S fuel' =>
      match scanstring s with
      | None => DecodeError
      | Some (key, s1) =>
          match expect 58 (skip_ws s1) with
          | None => DecodeError
          | Some s2 =>
              match scan_once fuel' (skip_ws s2) with
              | OutOfFuel => OutOfFuel
              | DecodeError => DecodeError
              | Ok v s3 =>
                  let acc' := dict_set key v acc in
                  match skip_ws s3 with
                  | x :: s4 =>
                      if x =? 125 then Ok (JObj acc') s4
                      else if x =? 44 then
                        match expect 34 (skip_ws s4) with
                        | Some s5 => JSONObject_pairs fuel' acc' s5
                        | None => DecodeError
                        end
                      else DecodeError
                  | [] => DecodeError
                  end
              end
          end
      end
  end

with JSONArray_items (fuel : nat) (acc : list json) (s : pystr) {struct fuel}
  : scan json :=
  match fuel with
  | O => OutOfFuel
  | S fuel' =>
      match scan_once fuel' s with
      | OutOfFuel => OutOfFuel
      | DecodeError => DecodeError
      | Ok v s1 =>
          match skip_ws s1 with
          | x :: s2 =>
              if x =? 93 then Ok (JArr (acc ++ [v])) s2
              else if x =? 44
              then JSONArray_items fuel' (acc ++ [v]) (skip_ws s2)
              else DecodeError
          | [] => DecodeError
          end
      end
  end.

(** A scan that did not run out of fuel and, when it gave a value, read at
    least one character. *)
Definition scan_ok {A} (r : scan A) (s : pystr) : Prop :=
  match r with
  | OutOfFuel => False
  | DecodeError => True
  | Ok _ rest => (List.length rest < List.length s)%nat
  end.

(** [JSONDecoder.decode]: one value, surrounded by optional white space,
    and nothing else.  A leading byte order mark is refused. *)
Definition decode (fuel : nat) (s : pystr) : scan json :=
  if startswith [65279] s then DecodeError
  else
    match scan_once fuel (skip_ws s) with
    | Ok v rest =>
        match skip_ws rest with
        | [] => Ok v []
        | _ => DecodeError
        end
    | r => r
    end.

(** [json.loads(s)]: [None] stands for [JSONDecodeError]. *)
Definition loads (s : pystr) : option json :=
  match decode (2 * List.length s + 2) s with
  | Ok v _ => Some v
  | _ => None
  end.

End Json.

Definition json_loads := Json.loads.


(** ** Exceptions, dynamic operations, generators *)

(** The exceptions of the [requests] library that the scripts catch as
    [requests.RequestException]; [message] is what [str(e)] gives. *)
Inductive request_error_kind :=
| ConnectionError
| ReadTimeout
| HTTPError
| ChunkedEncodingError
| InvalidJSONError.

Record RequestException := {
  kind : request_error_kind;
  message : pystr
}.

(** The other exceptions that the modelled code can raise.
    [RuntimeError x] is [RuntimeError(x)]: its text is [str(x)], which is
    [x] itself when [x] is a [str]. *)
Inductive exn :=
| RuntimeError (arg : json)
| TypeError
| AttributeError
| KeyError (k : pystr).

Inductive result (A : Type) :=
| Return (a : A)
| Raise (e : exn).
Arguments Raise {A}.

Definition bind {A B} (m : result A) (f : A -> result B) : result B :=
  match m with
  | Return a => f a
  | Raise e => Raise e
  end.

Notation "x <- m ;; k" := (bind m (fun x => k))
  (at level 61, m at next level, right associativity).

Fixpoint mapM {A B} (f : A -> result B) (l : list A) : result (list B) :=
  match l with
  | [] => Return []
  | a :: l' => b <- f a ;; bs <- mapM f l' ;; Return (b :: bs)
  end.

(** [k in x] for a string [k] *)
Definition py_contains (k : pystr) (x : json) : result bool :=
  match x with
  | JObj d => Return (match dict_get k d with Some _ => true | None => false end)
  | JStr s => Return (str_contains k s)
  | JArr l =>
      Return (existsb (fun v => match v with
                                | JStr s => str_eqb k s
                                | _ => false
                                end) l)
  | _ => Raise TypeError
  end.

(** [x[k]] for a string [k] *)
Definition py_getitem (x : json) (k : pystr) : result json :=
  match x with
  | JObj d => match dict_get k d with
              | Some v => Return v
              | None => Raise (KeyError k)
              end
  | _ => Raise TypeError
  end.

(** [x.get(k, default)] *)
Definition py_get (x : json) (k : pystr) (default : json) : result json :=
  match x with
  | JObj d => match dict_get k d with
              | Some v => Return v
              | None => Return default
              end
  | _ => Raise AttributeError
  end.

(** [for m in x]: the items the loop visits *)
Definition py_iter (x : json) : result (list json) :=
  match x with
  | JArr l => Return l
  | JObj d => Return (map (fun kv => JStr (fst kv)) d)
  | JStr s => Return (map (fun c => JStr [c]) s)
  | _ => Raise TypeError
  end.

(** [a or b] on two optional strings ([None] and the empty string are
    false) *)
Definition py_or (a b : option pystr) : option pystr :=
  match a with
  | Some (_ :: _) => a
  | _ => b
  end.

(** An optional string inside an f-string *)
Definition fstr (a : option pystr) : pystr :=
  match a with
  | Some s => s
  | None => lit "None"
  end.

(** [l.append(x)] *)
Definition py_list_append {A} (l : list A) (x : A) : list A := l ++ [x].

(** A generator that is run to its end: the items it yields, in order,
    and whether it then returns or raises. *)
Inductive gen_end :=
| Returns
| Raises (e : exn).

Definition gen (A : Type) : Type := list A * gen_end.

Definition yield {A} (x : A) (g : gen A) : gen A := (x :: fst g, snd g).

(** The truth value of a string *)
Definition nonempty_str (s : pystr) : bool :=
  match s with [] => false | _ :: _ => true end.

(** [x == k] for a string [k] *)
Definition eq_str (k : pystr) (x : json) : bool :=
  match x with
  | JStr s => str_eqb k s
  | _ => false
  end.

(** [str(n)] for an [int] *)
Definition py_str_int (z : Z) : pystr :=
  lit (NilZero.string_of_int (Z.to_int z)).

(** [len(x)] *)
Definition py_len (x : json) : result Z :=
  match x with
  | JArr l => Return (Z.of_nat (List.length l))
  | JObj d => Return (Z.of_nat (List.length d))
  | JStr s => Return (Z.of_nat (List.length s))
  | _ => Raise TypeError
  end.

(** [sep.join(items)]: every item must be a [str] *)
Fixpoint py_join (sep : pystr) (items : list json) : result pystr :=
  match items with
  | [] => Return []
  | JStr s :: rest =>
      match rest with
      | [] => Return s
      | _ :: _ => t <- py_join sep rest ;; Return (s ++ sep ++ t)
      end
  | _ :: _ => Raise TypeError
  end.

(** What the sidebar shows. *)
Inductive sidebar_event :=
| SbSuccess (msg : pystr)            (* st.success(msg) *)
| SbInfo (msg : pystr)               (* st.info(msg) *)
| SbError (msg : pystr)              (* st.error(msg) *)
| SbSelectbox (label : pystr) (options : list json).

(** ** The HTTP library *)

(** What a request does: it raises, or it gives a response.  A streamed
    response delivers its lines one by one and may break after some of
    them.  The lines of the chat stream are text
    ([iter_lines(decode_unicode=True)] on a response that declares its
    encoding), those of the pull stream are bytes. *)
Record response := {
  status_code : Z;
  http_error_msg : pystr;      (* text of the HTTPError for this status *)
  text : pystr;                (* the body *)
  json_error_msg : pystr       (* text of the error [r.json()] raises *)
}.

Record stream_response := {
  s_status_code : Z;
  s_http_error_msg : pystr;
  lines : list pystr;
  broken : option RequestException
}.

Inductive outcome (R : Type) :=
| Fails (e : RequestException)
| Responds (r : R).
Arguments Fails {R}.

Definition is_http_error (code : Z) : bool :=
  ((400 <=? code) && (code <? 600))%Z.

(** [r.raise_for_status()] *)
Definition raise_for_status (r : response) : option RequestException :=
  if is_http_error (status_code r)
  then Some {| kind := HTTPError; message := http_error_msg r |}
  else None.

Definition s_raise_for_status (r : stream_response) : option RequestException :=
  if is_http_error (s_status_code r)
  then Some {| kind := HTTPError; message := s_http_error_msg r |}
  else None.

(** [r.json()]: a body that is not JSON raises the library's own
    [JSONDecodeError], a [RequestException]. *)
Definition response_json (r : response) : RequestException + json :=
  match json_loads (text r) with
  | Some v => inr v
  | None => inl {| kind := InvalidJSONError; message := json_error_msg r |}
  end.

(** ** app.py *)

Module App.

(** The request body of [stream_chat_ollama] (lines 32 to 39). *)
Definition chat_payload (messages : list json) (model : json)
    (temperature : pyfloat) (max_tokens : Z) : dict :=
  let options := [(lit "temperature", JFloat temperature)] in
  let payload :=
    [(lit "model", model);
     (lit "messages", JArr messages);
     (lit "stream", JBool true);
     (lit "options", JObj options)] in
  if truthy (JInt max_tokens) && (0 <? max_tokens)%Z
  then dict_set (lit "options")
         (JObj (dict_set (lit "num_predict") (JInt max_tokens) options))
         payload
  else payload.

(** [RuntimeError(f"Failed to reach Ollama at {base_url}: {e}")] *)
Definition unreachable (base_url : pystr) (e : RequestException) : exn :=
  RuntimeError
    (JStr (lit "Failed to reach Ollama at " ++ base_url ++ lit ": " ++ message e)).

(** The body of the loop over the lines (lines 44 to 64), after a line
    has been decoded to [data]: the items yielded for it, and whether the
    loop goes on, stops, or an exception leaves it. *)
Inductive step :=
| Continue
| Break
| Abort (e : exn).

Definition chat_record (data : json) : list json * step :=
  match py_contains (lit "error") data with
  | Raise e => ([], Abort e)
  | Return true =>
      match py_getitem data (lit "error") with
      | Return v => ([], Abort (RuntimeError v))
      | Raise e => ([], Abort e)
      end
  | Return false =>
      match py_get data (lit "message") (JObj []) with
      | Raise e => ([], Abort e)
      | Return msg =>
          match py_get msg (lit "content") (JStr []) with
          | Raise e => ([], Abort e)
          | Return chunk =>
              let out := if truthy chunk then [chunk] else [] in
              match py_get data (lit "done") JNull with
              | Raise e => (out, Abort e)
              | Return d => (out, if truthy d then Break else Continue)
              end
          end
      end
  end.

(** How a line is handled: skipped because it is empty (line 45), skipped
    because it is not JSON (line 50), or decoded and processed. *)
Inductive line_class :=
| SkippedEmpty
| SkippedNotJson
| Decoded (data : json).

Definition classify (line : pystr) : line_class :=
  match line with
  | [] => SkippedEmpty
  | _ :: _ =>
      match json_loads line with
      | None => SkippedNotJson
      | Some data => Decoded data
      end
  end.

Definition chat_line (line : pystr) : list json * step :=
  match classify line with
  | SkippedEmpty => ([], Continue)
  | SkippedNotJson => ([], Continue)
  | Decoded data => chat_record data
  end.

(** The loop over the lines of the response.  When the lines run out the
    stream either ended or broke. *)
Fixpoint chat_lines (base_url : pystr) (ls : list pystr)
    (tail : option RequestException) : gen json :=
  match ls with
  | [] =>
      match tail with
      | None => ([], Returns)
      | Some e => ([], Raises (unreachable base_url e))
      end
  | line :: ls' =>
      let '(out, st) := chat_line line in
      match st with
      | Continue =>
          let '(items, fin) := chat_lines base_url ls' tail in
          (out ++ items, fin)
      | Break => (out, Returns)
      | Abort e => (out, Raises e)
      end
  end.

Section Chat.

(** [requests.post(url, json=payload, stream=True, timeout=600)] *)
Variable post : pystr -> json -> outcome stream_response.

Definition stream_chat_ollama (messages : list json) (model : json)
    (base_url : option pystr) (temperature : pyfloat) (max_tokens : Z)
  : gen json :=
  match base_url with
  | None => ([], Raises AttributeError)
  | Some b =>
      let url := rstrip_char 47 b ++ lit "/api/chat" in
      let payload := chat_payload messages model temperature max_tokens in
      match post url (JObj payload) with
      | Fails e => ([], Raises (unreachable b e))
      | Responds r =>
          match s_raise_for_status r with
          | Some e => ([], Raises (unreachable b e))
          | None => chat_lines b (lines r) (broken r)
          end
      end
  end.

(** [st.write_stream(stream)].  Text chunks are gathered into one running
    text (empty ones are ignored); any other chunk is written on its own
    after the running text is flushed.  The call returns the empty string
    when nothing was written, the text when one text was written, and the
    list of written objects otherwise.  An exception of the stream goes
    through to the caller. *)
Definition flush (streamed_response : pystr) : list json :=
  match streamed_response with
  | [] => []
  | _ :: _ => [JStr streamed_response]
  end.

Fixpoint written_content (streamed_response : pystr) (chunks : list json)
  : list json :=
  match chunks with
  | [] => flush streamed_response
  | JStr s :: rest => written_content (streamed_response ++ s) rest
  | v :: rest => flush streamed_response ++ v :: written_content [] rest
  end.

Definition write_stream (stream : gen json) : result json :=
  match snd stream with
  | Raises e => Raise e
  | Returns =>
      match written_content [] (fst stream) with
      | [] => Return (JStr [])
      | [JStr s] => Return (JStr s)
      | l => Return (JArr l)
      end
  end.

(** [for chunk in ...: full_response += chunk] *)
Fixpoint accumulate (full_response : pystr) (chunks : list json)
  : result pystr :=
  match chunks with
  | [] => Return full_response
  | JStr s :: rest => accumulate (full_response ++ s) rest
  | _ :: _ => Raise TypeError
  end.

(** A message of the conversation: [{"role": role, "content": content}] *)
Definition message (role content : pystr) : json :=
  JObj [(lit "role", JStr role); (lit "content", JStr content)].

(** The session state after line 18 when it had no messages or the clear
    button was pressed. *)
Definition initial_messages : list json :=
  [message (lit "system") (lit "You are a helpful AI assistant.")].

(** The settings of the sidebar (lines 11 to 14). *)
Record settings := {
  base_url : option pystr;
  model : json;
  temperature : pyfloat;
  max_tokens : Z
}.

(** Lines 88 to 103: the response collected from the stream, and the
    exception shown to the operator if there was one. *)
Definition collect (stream : gen json) : pystr * option exn :=
  match (ret <- write_stream stream ;;
         chunks <- py_iter ret ;;
         accumulate [] chunks) with
  | Return full_response => (full_response, None)
  | Raise e => ([], Some e)
  end.

(** The chat submission handler (lines 79 to 107): the conversation it
    leaves in the session state, and the exception it showed. *)
Definition chat_submit (cfg : settings) (messages : list json)
    (user_prompt : option pystr) : list json * option exn :=
  match user_prompt with
  | None => (messages, None)
  | Some [] => (messages, None)
  | Some prompt =>
      let messages := py_list_append messages (message (lit "user") prompt) in
      let '(full_response, shown) :=
        collect (stream_chat_ollama messages (model cfg) (base_url cfg)
                   (temperature cfg) (max_tokens cfg)) in
      match strip full_response with
      | [] => (messages, shown)
      | _ :: _ =>
          (py_list_append messages (message (lit "assistant") full_response),
           shown)
      end
  end.

(** Lines 18 to 21: the conversation of the session state at the start of
    a run of the script. *)
Definition init_messages (state : option (list json)) (clear : bool)
  : list json :=
  match state with
  | None => initial_messages
  | Some messages => if clear then initial_messages else messages
  end.

(** What the main area shows. *)
Inductive ui :=
| ChatMessage (name : json)          (* with st.chat_message(name): *)
| Markdown (body : json).            (* st.markdown(body) *)

(** Lines 70 to 74: the history is rendered, the system messages left
    out. *)
Fixpoint render_history (messages : list json) : gen ui :=
  match messages with
  | [] => ([], Returns)
  | m :: rest =>
      match py_getitem m (lit "role") with
      | Raise e => ([], Raises e)
      | Return role =>
          if eq_str (lit "system") role then render_history rest
          else
            match py_getitem m (lit "content") with
            | Raise e => ([ChatMessage role], Raises e)
            | Return content =>
                yield (ChatMessage role)
                  (yield (Markdown content) (render_history rest))
            end
      end
  end.

(** One run of the script: the session state it leaves.  An exception
    while the history is rendered ends the run before the input box. *)
Definition script (cfg : settings) (state : option (list json))
    (clear : bool) (user_prompt : option pystr) : list json :=
  let messages := init_messages state clear in
  match snd (render_history messages) with
  | Raises _ => messages
  | Returns => fst (chat_submit cfg messages user_prompt)
  end.

End Chat.

(** A mocked transport: every request is answered with status 200 and the
    given lines, and the stream ends after them. *)
Definition mock_post (ls : list pystr) : pystr -> json -> outcome stream_response :=
  fun _ _ =>
    Responds {| s_status_code := 200; s_http_error_msg := [];
                lines := ls; broken := None |}.

(** The runs of one session: each has its own transport behaviour, sidebar
    settings, clear button and input. *)
Record run := {
  transport : pystr -> json -> outcome stream_response;
  sidebar : settings;
  clear_pressed : bool;
  typed : option pystr
}.

Fixpoint session (state : option (list json)) (runs : list run)
  : option (list json) :=
  match runs with
  | [] => state
  | r :: runs' =>
      session
        (Some (script (transport r) (sidebar r) state (clear_pressed r)
                 (typed r)))
        runs'
  end.

End App.

(** ** app-v2.py *)

(** The chat part of [app-v2.py] (lines 126 to 206) is that of [app.py]
    line for line; only the model management of the sidebar is new. *)
Module AppV2.

Section Sidebar.

(** [os.getenv('OLLAMA_HOST')] *)
Variable default_base_url : option pystr.

(** [raw.decode("utf-8", errors="replace")] *)
Variable decode_utf8 : list N -> pystr.

(** [requests.get(url, timeout=2)] *)
Variable get : pystr -> outcome response.

(** [requests.post(url, json=body, stream=True)], with lines of bytes *)
Variable post : pystr -> json -> outcome stream_response.

(** Lines 23 to 32.  The second component is the decoded body, or the text
    of the exception. *)
Definition get_pulled_models (base_url : option pystr)
  : result (list json * json) :=
  let base_url := py_or base_url default_base_url in
  match get (fstr base_url ++ lit "/api/tags") with
  | Fails e => Return ([], JStr (message e))
  | Responds r =>
      match raise_for_status r with
      | Some e => Return ([], JStr (message e))
      | None =>
          match response_json r with
          | inl e => Return ([], JStr (message e))
          | inr data =>
              entries <- py_get data (lit "models") (JArr []) ;;
              ms <- py_iter entries ;;
              models <- mapM (fun m => py_getitem m (lit "name")) ms ;;
              Return (models, data)
          end
      end
  end.

(** [yield f"ERROR: {e}"] *)
Definition error_line (e : RequestException) : pystr :=
  lit "ERROR: " ++ message e.

(** The loop of lines 41 to 43, and the handler of line 44 when the
    stream breaks. *)
Fixpoint pull_lines (raws : list (list N)) (tail : option RequestException)
  : gen pystr :=
  match raws with
  | [] =>
      match tail with
      | None => ([], Returns)
      | Some e => ([error_line e], Returns)
      end
  | raw :: raws' =>
      match raw with
      | [] => pull_lines raws' tail
      | _ :: _ => yield (decode_utf8 raw) (pull_lines raws' tail)
      end
  end.

(** Lines 34 to 46. *)
Definition pull_model_stream (model_name : pystr) (base_url : option pystr)
  : gen pystr :=
  let base_url := py_or base_url default_base_url in
  let url := fstr base_url ++ lit "/api/pull" in
  match post url (JObj [(lit "name", JStr model_name)]) with
  | Fails e => ([error_line e], Returns)
  | Responds r =>
      match s_raise_for_status r with
      | Some e => ([error_line e], Returns)
      | None => pull_lines (lines r) (broken r)
      end
  end.

(** What the pull action shows. *)
Inductive ui_event :=
| ProgressText (line : pystr)        (* progress_placeholder.text(line) *)
| Success (msg : pystr)              (* st.success(msg) *)
| Rerun                              (* st.experimental_rerun() *)
| Error (msg : pystr)                (* st.error(msg) *)
| Text (msg : pystr).                (* st.text(msg) *)

(** [x in l] for a string [x] and a list [l] *)
Definition str_in (x : pystr) (l : list json) : bool :=
  existsb (fun v => match v with
                    | JStr s => str_eqb x s
                    | _ => false
                    end) l.

(** The loop of lines 97 to 101: the last item of the stream, starting
    from the empty string. *)
Definition last_line (items : list pystr) : pystr :=
  fold_left (fun _ line => line) items [].

Definition no_output : pystr := lit "<no output>".

(** [last_line or "<no output>"] *)
Definition last_or_placeholder (last : pystr) : pystr :=
  match last with
  | [] => no_output
  | _ :: _ => last
  end.

Definition success_msg (pull_choice : pystr) : pystr :=
  [9989%N; 32%N] ++ pull_choice ++ lit " pulled successfully".

Definition failure_msg (pull_choice : pystr) : pystr :=
  [10060%N] ++ lit " Pull finished but " ++ pull_choice
  ++ lit " not in pulled models.".

(** The pull button handler (lines 93 to 111).  [get] answers the query
    made after the stream is exhausted. *)
Definition pull_button (pull_choice : pystr) : result (list ui_event) :=
  let stream := pull_model_stream pull_choice None in
  let shown := map ProgressText (fst stream) in
  match snd stream with
  | Raises e => Raise e
  | Returns =>
      r <- get_pulled_models None ;;
      let new_pulled := fst r in
      if str_in pull_choice new_pulled
      then Return (shown ++ [Success (success_msg pull_choice); Rerun])
      else Return (shown ++
                   [Error (failure_msg pull_choice);
                    Text (lit "Last output from pull:" ++ [10%N]
                          ++ last_or_placeholder (last_line (fst stream)))])
  end.

(** Lines 13 to 21. *)
Definition check_ollama_health (base_url : option pystr) : bool * json :=
  let base_url := py_or base_url default_base_url in
  match get (fstr base_url ++ lit "/api/tags") with
  | Fails e => (false, JStr (message e))
  | Responds r =>
      if (status_code r =? 200)%Z then
        match response_json r with
        | inl e => (false, JStr (message e))
        | inr data => (true, data)
        end
      else (false, JStr (lit "Unexpected status: "
                           ++ py_str_int (status_code r)))
  end.

(** Lines 65 to 79: the health panel of the sidebar, what it shows and
    how it ends. *)
Definition health_panel : gen sidebar_event :=
  match get_pulled_models None with
  | Raise e => ([], Raises e)
  | Return (pulled_models, health_raw) =>
      match pulled_models with
      | _ :: _ =>
          match py_join (lit ", ") pulled_models with
          | Raise e =>
              ([SbSuccess ([9989%N] ++ lit " Ollama healthy")], Raises e)
          | Return names =>
              ([SbSuccess ([9989%N] ++ lit " Ollama healthy");
                SbInfo (lit "Pulled: " ++ names);
                SbSelectbox (lit "Choose model") pulled_models],
               Returns)
          end
      | [] =>
          match health_raw with
          | JStr t =>
              ([SbError ([10060%N] ++ lit " Healthcheck failed: " ++ t)],
               Returns)
          | _ => ([SbInfo (lit "No models pulled yet.")], Returns)
          end
      end
  end.

(** Lines 85 and 86. *)
Definition available_models : list pystr :=
  [lit "llama3.1:8b"; lit "llama3:7b"; lit "llama2:13b"].

Definition models_to_pull (pulled_models : list json) : list pystr :=
  filter (fun m => negb (str_in m pulled_models)) available_models.

End Sidebar.

End AppV2.

(** ** app-v4.py *)

Module AppV4.

Section Sidebar.

Variable default_base_url : option pystr.

(** [str(m)] for an entry that is not a dict *)
Variable py_str : json -> pystr.

(** [requests.get(url, timeout=3)] *)
Variable get : pystr -> outcome response.

(** [m.get("name") if isinstance(m, dict) else str(m)] *)
Definition entry_name (m : json) : json :=
  match m with
  | JObj d => match dict_get (lit "name") d with
              | Some v => v
              | None => JNull
              end
  | _ => JStr (py_str m)
  end.

(** Lines 11 to 23. *)
Definition get_pulled_models (base_url : option pystr)
  : result (list json * json) :=
  let base_url := py_or base_url default_base_url in
  match get (fstr base_url ++ lit "/api/tags") with
  | Fails e => Return ([], JStr (message e))
  | Responds r =>
      match raise_for_status r with
      | Some e => Return ([], JStr (message e))
      | None =>
          match response_json r with
          | inl e => Return ([], JStr (message e))
          | inr data =>
              entries <- py_get data (lit "models") (JArr []) ;;
              ms <- py_iter entries ;;
              Return (map entry_name ms, data)
          end
      end
  end.

(** Lines 104 to 121: the health panel of the sidebar, what it shows and
    how it ends. *)
Definition health_panel : gen sidebar_event :=
  match get_pulled_models None with
  | Raise e => ([], Raises e)
  | Return (pulled_models, health_info) =>
      match health_info with
      | JStr t =>
          ([SbError ([10060%N] ++ lit " Healthcheck failed: " ++ t)], Returns)
      | _ =>
          match pulled_models with
          | _ :: _ =>
              match py_join (lit ", ") pulled_models with
              | Raise e =>
                  ([SbSuccess ([9989%N] ++ lit " Ollama healthy")], Raises e)
              | Return names =>
                  ([SbSuccess ([9989%N] ++ lit " Ollama healthy");
                    SbInfo (lit "Pulled: " ++ names)],
                   Returns)
              end
          | [] =>
              ([SbSuccess ([9989%N] ++ lit " Ollama healthy");
                SbInfo (lit "No models pulled yet.")],
               Returns)
          end
      end
  end.

(** [raw.decode("utf-8", errors="replace")] *)
Variable decode_utf8 : list N -> pystr.

(** [requests.post(url, json=body, stream=True)], with lines of bytes *)
Variable post : pystr -> json -> outcome stream_response.

(** Lines 25 to 38, the text of lines 34 to 46 of [app-v2.py]. *)
Definition pull_model_stream : pystr -> option pystr -> gen pystr :=
  AppV2.pull_model_stream default_base_url decode_utf8 post.

(** The pull action (lines 142 to 158): the name is typed, and stripped
    for the request and for the check; nothing is done unless the button
    was pressed and the stripped name is not empty. *)
Definition pull_button (model_to_pull : pystr) (pressed : bool)
  : result (list AppV2.ui_event) :=
  if pressed && nonempty_str (strip model_to_pull) then
    let stream := pull_model_stream (strip model_to_pull) None in
    let shown := map AppV2.ProgressText (fst stream) in
    match snd stream with
    | Raises e => Raise e
    | Returns =>
        r <- get_pulled_models None ;;
        let new_pulled := fst r in
        if AppV2.str_in (strip model_to_pull) new_pulled
        then Return (shown ++
                     [AppV2.Success ([9989%N; 32%N] ++ model_to_pull
                                     ++ lit " pulled successfully");
                      AppV2.Rerun])
        else Return (shown ++
                     [AppV2.Error ([10060%N] ++ lit " Pull finished but "
                                   ++ model_to_pull
                                   ++ lit " not found in pulled models.");
                      AppV2.Text (lit "Last output:" ++ [10%N]
                                  ++ AppV2.last_or_placeholder
                                       (AppV2.last_line (fst stream)))])
    end
  else Return [].

End Sidebar.

End AppV4.

(** ** test-ollama.py *)

Module TestOllama.

Section Script.

(** [os.getenv('OLLAMA_HOST')] *)
Variable base_url : option pystr.

(** [str(x)] for the values that are not given below, and [str(e)] for
    the exceptions of the interpreter *)
Variable str_other : json -> pystr.
Variable str_exn : exn -> pystr.

(** [requests.get(url)] *)
Variable get : pystr -> outcome response.

(** A value inside an f-string *)
Definition py_str (x : json) : pystr :=
  match x with
  | JStr s => s
  | JInt z => py_str_int z
  | JNull => lit "None"
  | JBool true => lit "True"
  | JBool false => lit "False"
  | _ => str_other x
  end.

(** What leaves the guarded block: an exception of the HTTP library or
    another one. *)
Inductive raised :=
| Http (e : RequestException)
| Other (e : exn).

(** [requests.get(url)], [raise_for_status()], [.json()[key]] *)
Definition fetch (path key : pystr) : raised + json :=
  match get (fstr base_url ++ path) with
  | Fails e => inl (Http e)
  | Responds r =>
      match raise_for_status r with
      | Some e => inl (Http e)
      | None =>
          match response_json r with
          | inl e => inl (Http e)
          | inr data =>
              match py_getitem data key with
              | Raise e => inl (Other e)
              | Return v => inr v
              end
          end
      end
  end.

(** The two handlers (lines 22 to 27). *)
Definition handler (e : raised) : pystr :=
  match e with
  | Http {| kind := ConnectionError |} =>
      lit "Connection refused - Ollama not accessible"
  | Http e => lit "API error: " ++ message e
  | Other e => lit "API error: " ++ str_exn e
  end.

(** Lines 5 to 27: the lines printed and the value returned. *)
Definition test_ollama_connection : list pystr * bool :=
  match fetch (lit "/api/version") (lit "version") with
  | inl e => ([handler e], false)
  | inr version =>
      let line1 := lit "Ollama version: " ++ py_str version in
      match fetch (lit "/api/tags") (lit "models") with
      | inl e => ([line1; handler e], false)
      | inr models =>
          match py_len models with
          | Raise e => ([line1; handler (Other e)], false)
          | Return n =>
              ([line1; lit "Available models: " ++ py_str_int n], true)
          end
      end
  end.

(** Lines 29 to 33: the whole output of the script. *)
Definition main : list pystr :=
  let '(out, ok) := test_ollama_connection in
  out ++ [if ok
          then [9989%N] ++ lit " Ollama API connection successful!"
          else [10060%N] ++ lit " Connection issues persist"].

End Script.

End TestOllama.

(** ** The lines used in the examples *)

Definition line_A : pystr := dq "{'message':{'content':'A'},'done':false}".
Definition line_B : pystr := dq "{'message':{'content':'B'},'done':true}".
Definition line_not_found : pystr := dq "{'error':'model not found'}".
Definition line_boom : pystr := dq "{'error':'boom'}".

Definition default_settings : App.settings :=
  {| App.base_url := Some (lit "http://ollama:11434");
     App.model := JStr (lit "llama3.1:8b");
     App.temperature := FDec false 7 (-1);
     App.max_tokens := 0 |}.

(** Mocked transports for the catalog query and a refused connection. *)
Definition mock_get (body : pystr) : pystr -> outcome response :=
  fun _ =>
    Responds {| status_code := 200; http_error_msg := [];
                text := body; json_error_msg := [] |}.

Definition refused : RequestException :=
  {| kind := ConnectionError; message := lit "Connection refused" |}.

Definition refused_post : pystr -> json -> outcome stream_response :=
  fun _ _ => Fails refused.

Definition refused_get : pystr -> outcome response :=
  fun _ => Fails refused.

Definition tags_body : pystr :=
  dq "{'models':[{'name':'llama3.1:8b','size':4920753328},{'name':'llama2:13b'}]}".

(** A decoder for the examples: the UTF-8 decoding of bytes below 128, the
    replacement character for each other byte. *)
Definition decode_ascii_replace (raw : list N) : pystr :=
  map (fun b => if (b <? 128)%N then b else 65533%N) raw.

(** The exception that leaves the guarded block of [get_pulled_models], if
    there is one: raised by the request, by the status check or by the
    decoding of the body. *)
Definition request_failure (o : outcome response) : option RequestException :=
  match o with
  | Fails e => Some e
  | Responds r =>
      match raise_for_status r with
      | Some e => Some e
      | None =>
          match response_json r with
          | inl e => Some e
          | inr _ => None
          end
      end
  end.

Definition nonempty (raw : list N) : bool :=
  match raw with [] => false | _ :: _ => true end.

(** The entries are dicts and [names] are their "name" fields, in order. *)
Definition names_of (entries names : list json) : Prop :=
  Forall2 (fun m n => exists d, m = JObj d /\ dict_get (lit "name") d = Some n)
    entries names.


(** The exception of the HTTP library raised before the first line of a
    streamed response is read, if there is one. *)
Definition stream_failure (o : outcome stream_response)
  : option RequestException :=
  match o with
  | Fails e => Some e
  | Responds r => s_raise_for_status r
  end.

(** A message given by its role and content. *)
Definition turn_message (rc : pystr * pystr) : json :=
  App.message (fst rc) (snd rc).

(** [m["role"] == "system"] for a message that has a role *)
Definition is_system (m : json) : bool :=
  match py_getitem m (lit "role") with
  | Return role => eq_str (lit "system") role
  | Raise _ => false
  end.

(** The system preamble followed by user and assistant messages. *)
Definition conversation (log : list json) : Prop :=
  exists turns,
    log = App.initial_messages ++ map turn_message turns
    /\ Forall (fun rc => fst rc = lit "user" \/ fst rc = lit "assistant")
         turns.

(** [sep.join(names)] for strings *)
Fixpoint join_str (sep : pystr) (names : list pystr) : pystr :=
  match names with
  | [] => []
  | [n] => n
  | n :: rest => n ++ sep ++ join_str sep rest
  end.

(** A text has a character that is not white space. *)
Definition visible (s : pystr) : bool :=
  existsb (fun c => negb (py_isspace c)) s.

(** * Properties *)

Unset Implicit Arguments.

(** ** Strings *)

Lemma str_eqb_refl (a : pystr) : str_eqb a a = true.
Proof.
  induction a as [|x a IH]; simpl; [reflexivity|].
  now rewrite N.eqb_refl, IH.
Qed.

Lemma str_eqb_eq (a b : pystr) : str_eqb a b = true <-> a = b.
Proof.
  split; [|intros ->; apply str_eqb_refl].
  revert b; induction a as [|x a IH]; intros [|y b]; simpl; try easy.
  intros H; apply andb_prop in H as [Hx Hab].
  apply N.eqb_eq in Hx; subst; f_equal; auto.
Qed.

Lemma line_A_chars :
  line_A = [123; 34; 109; 101; 115; 115; 97; 103; 101; 34; 58; 123; 34; 99;
            111; 110; 116; 101; 110; 116; 34; 58; 34; 65; 34; 125; 44; 34;
            100; 111; 110; 101; 34; 58; 102; 97; 108; 115; 101; 125]%N.
Proof. reflexivity. Qed.

Lemma line_not_found_decoded :
  json_loads line_not_found
  = Some (JObj [(lit "error", JStr (lit "model not found"))]).
Proof. reflexivity. Qed.

(** ** The decoder never runs out of fuel *)

Ltac break_match :=
  match goal with
  | |- context [match ?x with _ => _ end] => destruct x eqn:?
  end.

Lemma skip_ws_length (s : pystr) :
  List.length (Json.skip_ws s) <= List.length s.
Proof.
  induction s as [|c s IH]; simpl; [lia|].
  destruct (Json.is_ws c); simpl; lia.
Qed.

Lemma expect_length (c : N) (s r : pystr) :
  Json.expect c s = Some r -> List.length s = S (List.length r).
Proof.
  destruct s as [|x s]; simpl; [discriminate|].
  destruct (x =? c)%N; [|discriminate]. now intros [= ->].
Qed.

Lemma scanstring_length_le (n : nat) :
  forall s t r, List.length s <= n ->
    Json.scanstring s = Some (t, r) -> List.length r < List.length s.
Proof.
  induction n as [|n IH]; intros s t r Hn.
  - destruct s; [discriminate|simpl in Hn; lia].
  - destruct s as [|c s]; [discriminate|].
    cbn [Json.scanstring].
    repeat break_match; subst; try discriminate;
      intros [= <- <-];
      repeat match goal with
             | E : Json.scanstring ?x = Some _ |- _ =>
                 apply IH in E; [|simpl in *; lia]
             end;
      simpl in *; lia.
Qed.

Lemma scanstring_length (s t r : pystr) :
  Json.scanstring s = Some (t, r) -> List.length r < List.length s.
Proof. apply (scanstring_length_le (List.length s)). lia. Qed.

Lemma digits_length (s : pystr) :
  forall acc n, List.length (snd (Json.digits acc n s)) <= List.length s.
Proof.
  induction s as [|c s IH]; intros acc n; simpl; [lia|].
  destruct (Json.is_digit c); simpl; [|lia].
  specialize (IH (acc * 10 + (c - 48))%N (n + 1)%Z). lia.
Qed.

Lemma number_int_length (s r : pystr) (n : N) :
  Json.number_int s = Some (n, r) -> List.length r < List.length s.
Proof.
  unfold Json.number_int. destruct s as [|c s]; [discriminate|].
  destruct (c =? 48)%N; [intros [= _ <-]; simpl; lia|].
  destruct (Json.is_digit c) eqn:Hd; [|discriminate].
  cbn [Json.digits]. rewrite Hd.
  pose proof (digits_length s (0 * 10 + (c - 48))%N (0 + 1)%Z) as H.
  destruct (Json.digits _ _ s) as [[a k] r']. intros [= _ <-].
  simpl in *. lia.
Qed.

Lemma number_frac_length (ip m : N) (fl : Z) (s r : pystr) :
  Json.number_frac ip s = Some (m, fl, r) -> List.length r < List.length s.
Proof.
  unfold Json.number_frac. destruct s as [|p [|d s]]; try discriminate.
  destruct ((p =? 46)%N && Json.is_digit d); [|discriminate].
  pose proof (digits_length (d :: s) ip 0%Z) as H.
  destruct (Json.digits ip 0 (d :: s)) as [[a k] r']. intros [= _ _ <-].
  simpl in *. lia.
Qed.

Lemma number_exp_length (ex : Z) (s r : pystr) :
  Json.number_exp s = Some (ex, r) -> List.length r < List.length s.
Proof.
  unfold Json.number_exp. destruct s as [|e [|sg s]]; try discriminate.
  - now destruct ((e =? 101)%N || (e =? 69)%N).
  - destruct ((e =? 101)%N || (e =? 69)%N); [|discriminate].
    destruct ((sg =? 45)%N || (sg =? 43)%N).
    + destruct s as [|d s]; [discriminate|].
      destruct (Json.is_digit d); [|discriminate].
      pose proof (digits_length (d :: s) 0%N 0%Z) as H.
      destruct (Json.digits 0 0 (d :: s)) as [[a k] r']. intros [= _ <-].
      simpl in *. lia.
    + destruct (Json.is_digit sg); [|discriminate].
      pose proof (digits_length (sg :: s) 0%N 0%Z) as H.
      destruct (Json.digits 0 0 (sg :: s)) as [[a k] r']. intros [= _ <-].
      simpl in *. lia.
Qed.

Lemma number_body_length (neg : bool) (s r : pystr) (v : json) :
  Json.number_body neg s = Some (v, r) -> List.length r < List.length s.
Proof.
  unfold Json.number_body.
  destruct (Json.number_int s) as [[ip s2]|] eqn:Hi; [|discriminate].
  apply number_int_length in Hi.
  destruct (Json.number_frac ip s2) as [[[m fl] s3]|] eqn:Hf.
  - apply number_frac_length in Hf.
    destruct (Json.number_exp s3) as [[ex s4]|] eqn:He.
    + apply number_exp_length in He. intros [= _ <-]. lia.
    + intros [= _ <-]. lia.
  - destruct (Json.number_exp s2) as [[ex s3]|] eqn:He.
    + apply number_exp_length in He. intros [= _ <-]. lia.
    + intros [= _ <-]. lia.
Qed.

Lemma match_number_length (s r : pystr) (v : json) :
  Json.match_number s = Some (v, r) -> List.length r < List.length s.
Proof.
  unfold Json.match_number. destruct s as [|c s]; [discriminate|].
  destruct (c =? 45)%N; intros H; apply number_body_length in H;
    simpl in *; lia.
Qed.

Lemma skipn_shorter (k : nat) (s : pystr) :
  0 < k -> s <> [] -> List.length (skipn k s) < List.length s.
Proof.
  intros Hk Hs. rewrite length_skipn. destruct s; [congruence|].
  cbn [List.length]. lia.
Qed.

Lemma scan_ok_weaken {A} (r : Json.scan A) (s' s : pystr) :
  List.length s' <= List.length s -> Json.scan_ok r s' -> Json.scan_ok r s.
Proof. destruct r; simpl; auto. lia. Qed.

Lemma scan_fuel (fuel : nat) :
  (forall s, 2 * List.length s < fuel ->
     Json.scan_ok (Json.scan_once fuel s) s)
  /\ (forall acc s, 2 * List.length s < fuel ->
        Json.scan_ok (Json.JSONObject_pairs fuel acc s) s)
  /\ (forall acc s, 2 * List.length s + 1 < fuel ->
        Json.scan_ok (Json.JSONArray_items fuel acc s) s).
Proof.
  induction fuel as [|fuel (IHv & IHo & IHa)].
  - repeat split; intros; lia.
  - split; [|split].
    + intros s Hs. destruct s as [|c r]; [exact I|].
      cbn [Json.scan_once].
      pose proof (skip_ws_length r) as Hws.
      destruct (c =? 34)%N.
      { destruct (Json.scanstring r) as [[t rest]|] eqn:E; [|exact I].
        apply scanstring_length in E. simpl. lia. }
      destruct (c =? 123)%N.
      { destruct (Json.skip_ws r) as [|x r'] eqn:E; [exact I|].
        destruct (x =? 125)%N; [simpl in *; lia|].
        destruct (x =? 34)%N; [|exact I].
        apply (scan_ok_weaken _ r'); [simpl in *; lia|].
        apply IHo. simpl in *. lia. }
      destruct (c =? 91)%N.
      { destruct (Json.skip_ws r) as [|x r'] eqn:E; [exact I|].
        destruct (x =? 93)%N; [simpl in *; lia|].
        apply (scan_ok_weaken _ (x :: r')); [simpl in *; lia|].
        apply IHa. simpl in *. lia. }
      assert (Hsk : forall k, 0 < k ->
                 List.length (skipn k (c :: r)) < List.length (c :: r))
        by (intros k Hk; apply skipn_shorter; [exact Hk|discriminate]).
      repeat match goal with
             | |- context [if ?b then _ else _] => destruct b
             end;
        try (apply Hsk; lia);
        destruct (Json.match_number (c :: r)) as [[v rest]|] eqn:E;
        try (apply match_number_length in E; exact E);
        try (apply Hsk; lia); exact I.
    + intros acc s Hs. cbn [Json.JSONObject_pairs].
      destruct (Json.scanstring s) as [[key s1]|] eqn:Ek; [|exact I].
      apply scanstring_length in Ek.
      pose proof (skip_ws_length s1) as Hw1.
      destruct (Json.expect 58 (Json.skip_ws s1)) as [s2|] eqn:Ec; [|exact I].
      apply expect_length in Ec.
      pose proof (skip_ws_length s2) as Hw2.
      specialize (IHv (Json.skip_ws s2)).
      unfold Json.scan_ok in IHv |- *.
      destruct (Json.scan_once fuel (Json.skip_ws s2)) as [| |v s3].
      { apply IHv. lia. }
      { exact I. }
      assert (H3 : List.length s3 < List.length (Json.skip_ws s2))
        by (apply IHv; lia).
      pose proof (skip_ws_length s3) as Hw3.
      destruct (Json.skip_ws s3) as [|x s4] eqn:E3; [exact I|].
      simpl in Hw3.
      destruct (x =? 125)%N; [lia|].
      destruct (x =? 44)%N; [|exact I].
      pose proof (skip_ws_length s4) as Hw4.
      destruct (Json.expect 34 (Json.skip_ws s4)) as [s5|] eqn:E5; [|exact I].
      apply expect_length in E5.
      specialize (IHo (dict_set key v acc) s5).
      unfold Json.scan_ok in IHo.
      destruct (Json.JSONObject_pairs fuel (dict_set key v acc) s5).
      { apply IHo. lia. }
      { exact I. }
      assert (List.length rest < List.length s5) by (apply IHo; lia).
      lia.
    + intros acc s Hs. cbn [Json.JSONArray_items].
      specialize (IHv s).
      unfold Json.scan_ok in IHv |- *.
      destruct (Json.scan_once fuel s) as [| |v s1].
      { apply IHv. lia. }
      { exact I. }
      assert (H1 : List.length s1 < List.length s) by (apply IHv; lia).
      pose proof (skip_ws_length s1) as Hw1.
      destruct (Json.skip_ws s1) as [|x s2] eqn:E1; [exact I|].
      simpl in Hw1.
      destruct (x =? 93)%N; [lia|].
      destruct (x =? 44)%N; [|exact I].
      pose proof (skip_ws_length s2) as Hw2.
      specialize (IHa (acc ++ [v]) (Json.skip_ws s2)).
      unfold Json.scan_ok in IHa.
      destruct (Json.JSONArray_items fuel (acc ++ [v]) (Json.skip_ws s2)).
      { apply IHa. lia. }
      { exact I. }
      assert (List.length rest < List.length (Json.skip_ws s2))
        by (apply IHa; lia).
      lia.
Qed.

(** [json_loads] gives [None] only when the decoder fails: the fuel it is
    given is always enough. *)
Lemma decode_has_fuel (s : pystr) :
  Json.decode (2 * List.length s + 2) s <> Json.OutOfFuel.
Proof.
  unfold Json.decode.
  destruct (startswith [65279%N] s); [discriminate|].
  pose proof (skip_ws_length s) as Hw.
  pose proof (proj1 (scan_fuel (2 * List.length s + 2)) (Json.skip_ws s)) as H.
  unfold Json.scan_ok in H.
  destruct (Json.scan_once _ (Json.skip_ws s)) as [| |v rest].
  - exfalso. apply H. lia.
  - discriminate.
  - now destruct (Json.skip_ws rest).
Qed.

Lemma json_loads_none (s : pystr) :
  json_loads s = None ->
  Json.decode (2 * List.length s + 2) s = Json.DecodeError.
Proof.
  unfold json_loads, Json.loads. intros H.
  pose proof (decode_has_fuel s) as Hf.
  destruct (Json.decode _ s); [congruence|reflexivity|discriminate].
Qed.

(** ** Conversation log *)

(** C8: appending message M to conversation C gives a sequence of length
    len(C)+1 whose first len(C) elements are C, in order, and whose last
    element is M. *)
Theorem append_extends_conversation (C : list json) (M : json) :
  List.length (py_list_append C M) = List.length C + 1
  /\ firstn (List.length C) (py_list_append C M) = C
  /\ nth_error (py_list_append C M) (List.length C) = Some M
  /\ skipn (List.length C) (py_list_append C M) = [M].
Proof.
  unfold py_list_append. repeat split.
  - now rewrite length_app.
  - rewrite firstn_app, Nat.sub_diag, firstn_all. simpl. apply app_nil_r.
  - rewrite nth_error_app2, Nat.sub_diag by lia. reflexivity.
  - rewrite skipn_app, Nat.sub_diag, skipn_all. reflexivity.
Qed.

(** ** Request body *)

(** C7: with max_tokens zero (the default when the argument is absent) the
    options of the request body hold the temperature only, without a
    num_predict entry; with a positive max_tokens they hold num_predict
    equal to it. *)
Theorem chat_payload_num_predict (messages : list json) (model : json)
    (temperature : pyfloat) (max_tokens : Z) :
  dict_get (lit "options") (App.chat_payload messages model temperature 0)
  = Some (JObj [(lit "temperature", JFloat temperature)])
  /\ dict_get (lit "options")
       (App.chat_payload messages model temperature max_tokens)
     = Some (JObj
         (if (0 <? max_tokens)%Z
          then [(lit "temperature", JFloat temperature);
                (lit "num_predict", JInt max_tokens)]
          else [(lit "temperature", JFloat temperature)])).
Proof.
  split; [reflexivity|].
  unfold App.chat_payload.
  destruct (0 <? max_tokens)%Z eqn:Hpos.
  - apply Z.ltb_lt in Hpos.
    assert (Hnz : (max_tokens =? 0)%Z = false) by (apply Z.eqb_neq; lia).
    simpl truthy. rewrite Hnz. reflexivity.
  - rewrite andb_false_r. reflexivity.
Qed.

(** ** Chat stream consumer *)

Lemma chat_record_error (d : dict) (v : json) :
  dict_get (lit "error") d = Some v ->
  App.chat_record (JObj d) = ([], App.Abort (RuntimeError v)).
Proof.
  intros H. unfold App.chat_record, py_contains, py_getitem.
  now rewrite H.
Qed.

Lemma chat_record_plain (d : dict) :
  dict_get (lit "error") d = None ->
  App.chat_record (JObj d)
  = match py_get (JObj d) (lit "message") (JObj []) with
    | Raise e => ([], App.Abort e)
    | Return msg =>
        match py_get msg (lit "content") (JStr []) with
        | Raise e => ([], App.Abort e)
        | Return chunk =>
            (if truthy chunk then [chunk] else [],
             match dict_get (lit "done") d with
             | Some dn => if truthy dn then App.Break else App.Continue
             | None => App.Continue
             end)
        end
    end.
Proof.
  intros H. unfold App.chat_record, py_contains. rewrite H.
  destruct (py_get (JObj d) (lit "message") (JObj [])) as [msg|e]; [|reflexivity].
  destruct (py_get msg (lit "content") (JStr [])) as [chunk|e]; [|reflexivity].
  unfold py_get. destruct (dict_get (lit "done") d); reflexivity.
Qed.

Lemma chat_record_content_done (d msg : dict) (chunk dn : json) :
  dict_get (lit "error") d = None ->
  dict_get (lit "message") d = Some (JObj msg) ->
  dict_get (lit "content") msg = Some chunk ->
  truthy chunk = true ->
  dict_get (lit "done") d = Some dn ->
  truthy dn = true ->
  App.chat_record (JObj d) = ([chunk], App.Break).
Proof.
  intros He Hm Hc Ht Hd Hdt. rewrite chat_record_plain by exact He.
  unfold py_get. now rewrite Hm, Hc, Ht, Hd, Hdt.
Qed.

Lemma chat_lines_decoded (b line : pystr) (data : json) (rest : list pystr)
    (tail : option RequestException) :
  App.classify line = App.Decoded data ->
  App.chat_lines b (line :: rest) tail
  = match snd (App.chat_record data) with
    | App.Continue =>
        (fst (App.chat_record data) ++ fst (App.chat_lines b rest tail),
         snd (App.chat_lines b rest tail))
    | App.Break => (fst (App.chat_record data), Returns)
    | App.Abort e => (fst (App.chat_record data), Raises e)
    end.
Proof.
  intros H. cbn [App.chat_lines]. unfold App.chat_line. rewrite H.
  destruct (App.chat_record data) as [out st].
  destruct st; cbn [fst snd]; try reflexivity.
  now destruct (App.chat_lines b rest tail).
Qed.

(** C2: on the two lines with contents A (done false) and B (done true)
    the consumer yields the deltas A and B and then returns, and the text
    collected from them is AB; in general a record that carries non-empty
    content and a true done flag has its content yielded before the stream
    ends, and nothing after it is read. *)
Theorem content_is_yielded_before_done :
  (forall messages model b temperature max_tokens,
      App.stream_chat_ollama (App.mock_post [line_A; line_B])
        messages model (Some b) temperature max_tokens
      = ([JStr (lit "A"); JStr (lit "B")], Returns)
      /\ App.collect
           (App.stream_chat_ollama (App.mock_post [line_A; line_B])
              messages model (Some b) temperature max_tokens)
         = (lit "AB", None))
  /\ (forall b line d msg chunk dn rest tail,
         App.classify line = App.Decoded (JObj d) ->
         dict_get (lit "error") d = None ->
         dict_get (lit "message") d = Some (JObj msg) ->
         dict_get (lit "content") msg = Some chunk ->
         truthy chunk = true ->
         dict_get (lit "done") d = Some dn ->
         truthy dn = true ->
         App.chat_lines b (line :: rest) tail = ([chunk], Returns)).
Proof.
  split.
  - intros. split; vm_compute; reflexivity.
  - intros b line d msg chunk dn rest tail Hl He Hm Hc Ht Hd Hdt.
    rewrite (chat_lines_decoded b line _ rest tail Hl).
    now rewrite (chat_record_content_done d msg chunk dn He Hm Hc Ht Hd Hdt).
Qed.

Lemma content_is_yielded_before_done_witness :
  App.chat_lines (lit "http://ollama:11434") [line_B; line_A] None
  = ([JStr (lit "B")], Returns).
Proof.
  apply (proj2 content_is_yielded_before_done
           (lit "http://ollama:11434") line_B
           [(lit "message", JObj [(lit "content", JStr (lit "B"))]);
            (lit "done", JBool true)]
           [(lit "content", JStr (lit "B"))]
           (JStr (lit "B")) (JBool true) [line_A] None);
    reflexivity.
Defined.

(** C3: on the single line with the error "model not found" the consumer
    yields nothing and raises with that message; and every decoded record
    with an error key raises with the value of that key and yields nothing,
    whatever message, content or done it also holds. *)
Theorem error_key_takes_priority :
  (forall messages model b temperature max_tokens,
      App.stream_chat_ollama (App.mock_post [line_not_found])
        messages model (Some b) temperature max_tokens
      = ([], Raises (RuntimeError (JStr (lit "model not found")))))
  /\ (forall d v,
         dict_get (lit "error") d = Some v ->
         App.chat_record (JObj d) = ([], App.Abort (RuntimeError v)))
  /\ (forall b line d v rest tail,
         App.classify line = App.Decoded (JObj d) ->
         dict_get (lit "error") d = Some v ->
         App.chat_lines b (line :: rest) tail = ([], Raises (RuntimeError v))).
Proof.
  split; [|split].
  - intros. vm_compute. reflexivity.
  - exact chat_record_error.
  - intros b line d v rest tail Hl He.
    rewrite (chat_lines_decoded b line _ rest tail Hl).
    now rewrite (chat_record_error d v He).
Qed.

Lemma error_key_takes_priority_witness :
  App.chat_record
    (JObj [(lit "message", JObj [(lit "content", JStr (lit "hi"))]);
           (lit "done", JBool true);
           (lit "error", JStr (lit "boom"))])
  = ([], App.Abort (RuntimeError (JStr (lit "boom"))))
  /\ App.chat_lines (lit "http://ollama:11434")
       [dq "{'message':{'content':'hi'},'done':true,'error':'boom'}"; line_A]
       None
     = ([], Raises (RuntimeError (JStr (lit "boom")))).
Proof.
  split.
  - apply (proj1 (proj2 error_key_takes_priority)). reflexivity.
  - apply (proj2 (proj2 error_key_takes_priority)) with
      (d := [(lit "message", JObj [(lit "content", JStr (lit "hi"))]);
             (lit "done", JBool true);
             (lit "error", JStr (lit "boom"))]);
      reflexivity.
Defined.

(** ** Blank lines *)

Lemma py_isspace_range (c : N) :
  py_isspace c = true -> (c <= 32 \/ (133 <= c /\ c <= 12288))%N.
Proof.
  unfold py_isspace. intros H.
  repeat (apply orb_prop in H as [H|H]);
    repeat match goal with
           | H : (_ && _)%bool = true |- _ => apply andb_prop in H as [? ?]
           | H : (_ <=? _)%N = true |- _ => apply N.leb_le in H
           | H : (_ =? _)%N = true |- _ => apply N.eqb_eq in H
           end; lia.
Qed.

Lemma scan_once_no_value (fuel : nat) (c : N) (r : pystr) :
  (c <= 32 \/ 133 <= c)%N ->
  Json.scan_once (S fuel) (c :: r) = Json.DecodeError.
Proof.
  intros Hc.
  assert (Hne : forall k, (32 < k < 133)%N -> (c =? k)%N = false /\ (k =? c)%N = false)
    by (intros k Hk; split; apply N.eqb_neq; lia).
  assert (Hdig : Json.is_digit c = false).
  { unfold Json.is_digit. apply andb_false_iff.
    destruct Hc; [left|right]; apply N.leb_gt; lia. }
  cbn [Json.scan_once].
  rewrite (proj1 (Hne 34%N ltac:(lia))), (proj1 (Hne 123%N ltac:(lia))),
    (proj1 (Hne 91%N ltac:(lia))).
  cbn -[N.eqb Json.match_number].
  rewrite (proj2 (Hne 110%N ltac:(lia))), (proj2 (Hne 116%N ltac:(lia))),
    (proj2 (Hne 102%N ltac:(lia))), (proj2 (Hne 78%N ltac:(lia))),
    (proj2 (Hne 73%N ltac:(lia))), (proj2 (Hne 45%N ltac:(lia))).
  cbn [andb].
  unfold Json.match_number, Json.number_body, Json.number_int.
  rewrite (proj1 (Hne 45%N ltac:(lia))), (proj1 (Hne 48%N ltac:(lia))), Hdig.
  reflexivity.
Qed.

Lemma skip_ws_blank (s : pystr) :
  forallb py_isspace s = true ->
  Json.skip_ws s = []
  \/ exists c r, Json.skip_ws s = c :: r /\ py_isspace c = true.
Proof.
  induction s as [|c s IH]; simpl; intros H; [now left|].
  apply andb_prop in H as [Hc Hs].
  destruct (Json.is_ws c); [auto|].
  right. now exists c, s.
Qed.

Lemma blank_is_not_json (s : pystr) :
  forallb py_isspace s = true -> json_loads s = None.
Proof.
  intros H. unfold json_loads, Json.loads, Json.decode.
  replace (2 * List.length s + 2) with (S (2 * List.length s + 1)) by lia.
  assert (Hbom : startswith [65279%N] s = false).
  { destruct s as [|c s]; [reflexivity|]. cbn [forallb] in H.
    cbn [startswith].
    apply andb_prop in H as [Hc _]. apply py_isspace_range in Hc.
    replace (65279 =? c)%N with false; [reflexivity|].
    symmetry. apply N.eqb_neq. lia. }
  rewrite Hbom.
  destruct (skip_ws_blank s H) as [-> | (c & r & -> & Hc)]; [reflexivity|].
  rewrite scan_once_no_value; [reflexivity|].
  apply py_isspace_range in Hc. lia.
Qed.

(** C6, as the code has it: a line that is empty or made of white space
    only yields nothing and the loop goes on to the next line.  The empty
    line is dropped by the test of line 45, before any decoding; a
    non-empty blank line passes that test, is handed to the decoder, and
    is dropped as a line that is not JSON. *)
Theorem blank_line_is_skipped (line : pystr) :
  forallb py_isspace line = true ->
  App.chat_line line = ([], App.Continue)
  /\ (forall b rest tail,
         App.chat_lines b (line :: rest) tail = App.chat_lines b rest tail)
  /\ (line = [] -> App.classify line = App.SkippedEmpty)
  /\ (line <> [] -> App.classify line = App.SkippedNotJson).
Proof.
  intros H.
  assert (Hc : App.classify line
               = match line with [] => App.SkippedEmpty | _ => App.SkippedNotJson end).
  { unfold App.classify. destruct line; [reflexivity|].
    now rewrite blank_is_not_json. }
  assert (Hl : App.chat_line line = ([], App.Continue)).
  { unfold App.chat_line. rewrite Hc. now destruct line. }
  repeat split.
  - exact Hl.
  - intros b rest tail. cbn [App.chat_lines]. rewrite Hl.
    now destruct (App.chat_lines b rest tail).
  - now intros ->.
  - intros Hne. rewrite Hc. now destruct line.
Qed.

Lemma blank_line_is_skipped_witness :
  App.chat_line (lit "  ") = ([], App.Continue)
  /\ App.classify (lit "  ") = App.SkippedNotJson
  /\ App.classify [] = App.SkippedEmpty.
Proof.
  split; [|split].
  - apply (blank_line_is_skipped (lit "  ")). reflexivity.
  - apply (blank_line_is_skipped (lit "  ")); [reflexivity|discriminate].
  - apply (blank_line_is_skipped []); reflexivity.
Defined.

(** C6 as stated fails on a line holding one space: the line is not
    filtered by the emptiness test, it reaches [json.loads] and is dropped
    by the handler of lines that are not JSON. *)
Lemma blank_line_counterexample :
  forallb py_isspace (lit " ") = true
  /\ json_loads (lit " ") = None
  /\ App.classify (lit " ") = App.SkippedNotJson
  /\ App.classify (lit " ") <> App.SkippedEmpty.
Proof.
  repeat split; try reflexivity. discriminate.
Qed.

(** ** Collecting the response *)

Lemma lstrip_nil (s : pystr) : lstrip s = [] <-> forallb py_isspace s = true.
Proof.
  induction s as [|c s IH]; simpl; [easy|].
  destruct (py_isspace c); simpl; [exact IH|easy].
Qed.

Lemma forallb_lstrip (s : pystr) :
  forallb py_isspace (lstrip s) = forallb py_isspace s.
Proof.
  induction s as [|c s IH]; simpl; [reflexivity|].
  destruct (py_isspace c) eqn:Hc; simpl; [exact IH|now rewrite Hc].
Qed.

Lemma forallb_rev_eq (f : N -> bool) (s : pystr) :
  forallb f (rev s) = forallb f s.
Proof.
  induction s as [|c s IH]; simpl; [reflexivity|].
  rewrite forallb_app, IH. simpl. rewrite andb_true_r. apply andb_comm.
Qed.

Lemma rstrip_nil (s : pystr) : rstrip s = [] <-> forallb py_isspace s = true.
Proof.
  unfold rstrip. rewrite <- (forallb_rev_eq py_isspace s), <- lstrip_nil.
  split; intros H.
  - apply (f_equal (@rev N)) in H. now rewrite rev_involutive in H.
  - now rewrite H.
Qed.

Lemma strip_nil (s : pystr) : strip s = [] <-> forallb py_isspace s = true.
Proof.
  unfold strip. now rewrite rstrip_nil, forallb_lstrip.
Qed.

Lemma visible_forallb (s : pystr) :
  visible s = negb (forallb py_isspace s).
Proof.
  unfold visible. induction s as [|c s IH]; simpl; [reflexivity|].
  rewrite IH. now destruct (py_isspace c).
Qed.

Lemma strip_visible (s : pystr) :
  match strip s with [] => visible s = false | _ :: _ => visible s = true end.
Proof.
  rewrite visible_forallb.
  destruct (strip s) eqn:E.
  - apply strip_nil in E. now rewrite E.
  - destruct (forallb py_isspace s) eqn:F; [|reflexivity].
    apply strip_nil in F. congruence.
Qed.

Lemma written_content_text (ds : list pystr) (pending : pystr) :
  App.written_content pending (map JStr ds) = App.flush (pending ++ List.concat ds).
Proof.
  revert pending. induction ds as [|d ds IH]; intros pending; simpl.
  - now rewrite app_nil_r.
  - now rewrite IH, app_assoc.
Qed.

Lemma accumulate_chars (s acc : pystr) :
  App.accumulate acc (map (fun c => JStr [c]) s) = Return (acc ++ s).
Proof.
  revert acc. induction s as [|c s IH]; intros acc; simpl.
  - now rewrite app_nil_r.
  - rewrite IH. now rewrite <- app_assoc.
Qed.

Lemma collect_text (ds : list pystr) :
  App.collect (map JStr ds, Returns) = (List.concat ds, None).
Proof.
  unfold App.collect, App.write_stream. cbn [fst snd].
  rewrite written_content_text. cbn [app].
  destruct (List.concat ds) as [|c s] eqn:E; cbn [App.flush bind py_iter].
  - reflexivity.
  - now rewrite accumulate_chars.
Qed.

Lemma collect_raises (items : list json) (e : exn) :
  App.collect (items, Raises e) = ([], Some e).
Proof. reflexivity. Qed.

Lemma chat_submit_unfold (post : pystr -> json -> outcome stream_response)
    (cfg : App.settings) (messages : list json) (prompt : pystr) :
  prompt <> [] ->
  App.chat_submit post cfg messages (Some prompt)
  = let log := py_list_append messages (App.message (lit "user") prompt) in
    let r := App.collect
               (App.stream_chat_ollama post log (App.model cfg)
                  (App.base_url cfg) (App.temperature cfg)
                  (App.max_tokens cfg)) in
    (if visible (fst r)
     then py_list_append log (App.message (lit "assistant") (fst r))
     else log,
     snd r).
Proof.
  intros Hp. unfold App.chat_submit.
  destruct prompt as [|c prompt]; [congruence|].
  cbv zeta.
  destruct (App.collect _) as [full shown]. cbn [fst snd].
  pose proof (strip_visible full) as Hv.
  destruct (strip full); now rewrite Hv.
Qed.

(** C9: when the stream completes, the handler appends an assistant message
    exactly when the collected response has a character that is not white
    space; otherwise the conversation is left as it was after the user
    message.  When the deltas are texts the collected response is their
    concatenation. *)
Theorem assistant_turn_iff_visible_response
    (post : pystr -> json -> outcome stream_response)
    (cfg : App.settings) (messages : list json) (prompt : pystr)
    (ds : list pystr) :
  prompt <> [] ->
  App.stream_chat_ollama post
    (py_list_append messages (App.message (lit "user") prompt))
    (App.model cfg) (App.base_url cfg) (App.temperature cfg)
    (App.max_tokens cfg)
  = (map JStr ds, Returns) ->
  App.chat_submit post cfg messages (Some prompt)
  = (if visible (List.concat ds)
     then messages ++ [App.message (lit "user") prompt;
                       App.message (lit "assistant") (List.concat ds)]
     else messages ++ [App.message (lit "user") prompt],
     None)
  /\ (visible (List.concat ds) = true
      <-> exists c, In c (List.concat ds) /\ py_isspace c = false).
Proof.
  intros Hp Hs. split.
  - rewrite chat_submit_unfold by exact Hp.
    cbv zeta. rewrite Hs, collect_text. cbn [fst snd].
    unfold py_list_append. rewrite <- app_assoc. reflexivity.
  - unfold visible. rewrite existsb_exists.
    split; intros (c & Hin & Hc); exists c; split; auto.
    + now apply negb_true_iff.
    + now apply negb_true_iff.
Qed.

Lemma assistant_turn_iff_visible_response_witness :
  App.chat_submit (App.mock_post [line_A; line_B]) default_settings
    App.initial_messages (Some (lit "hi"))
  = (App.initial_messages
       ++ [App.message (lit "user") (lit "hi");
           App.message (lit "assistant") (lit "AB")],
     None).
Proof.
  apply (assistant_turn_iff_visible_response
           (App.mock_post [line_A; line_B]) default_settings
           App.initial_messages (lit "hi") [lit "A"; lit "B"]).
  - discriminate.
  - reflexivity.
Defined.

Lemma blank_response_is_not_saved :
  App.chat_submit
    (App.mock_post [dq "{'message':{'content':' '},'done':false}";
                    dq "{'message':{'content':'\n'},'done':true}"])
    default_settings App.initial_messages (Some (lit "hi"))
  = (App.initial_messages ++ [App.message (lit "user") (lit "hi")], None).
Proof. reflexivity. Qed.

Lemma chat_lines_continue (b : pystr) (pre ls : list pystr)
    (tail : option RequestException) :
  Forall (fun l => snd (App.chat_line l) = App.Continue) pre ->
  App.chat_lines b (pre ++ ls) tail
  = (flat_map (fun l => fst (App.chat_line l)) pre
       ++ fst (App.chat_lines b ls tail),
     snd (App.chat_lines b ls tail)).
Proof.
  induction 1 as [|l pre Hl _ IH]; cbn [app flat_map App.chat_lines].
  - now destruct (App.chat_lines b ls tail).
  - destruct (App.chat_line l) as [out st]. cbn [snd] in Hl. subst st.
    rewrite IH. cbn [fst]. now rewrite app_assoc.
Qed.

(** C1, as the code has it: when the stream raises, whatever was yielded
    before, the handler shows the exception and leaves the conversation as
    it was after the user message, without an assistant turn.  In
    particular an error record that arrives after some deltas ends the
    stream with that error, after those deltas. *)
Theorem stream_error_leaves_no_assistant_turn
    (post : pystr -> json -> outcome stream_response)
    (cfg : App.settings) (messages : list json) (prompt : pystr) :
  prompt <> [] ->
  (forall items e,
      App.stream_chat_ollama post
        (py_list_append messages (App.message (lit "user") prompt))
        (App.model cfg) (App.base_url cfg) (App.temperature cfg)
        (App.max_tokens cfg)
      = (items, Raises e) ->
      App.chat_submit post cfg messages (Some prompt)
      = (messages ++ [App.message (lit "user") prompt], Some e))
  /\ (forall b pre line d v rest tail,
         Forall (fun l => snd (App.chat_line l) = App.Continue) pre ->
         App.classify line = App.Decoded (JObj d) ->
         dict_get (lit "error") d = Some v ->
         App.chat_lines b (pre ++ line :: rest) tail
         = (flat_map (fun l => fst (App.chat_line l)) pre,
            Raises (RuntimeError v))).
Proof.
  intros Hp. split.
  - intros items e Hs. rewrite chat_submit_unfold by exact Hp.
    cbv zeta. rewrite Hs, collect_raises. reflexivity.
  - intros b pre line d v rest tail Hpre Hl He.
    rewrite chat_lines_continue by exact Hpre.
    rewrite (chat_lines_decoded b line _ rest tail Hl).
    rewrite (chat_record_error d v He). cbn [fst snd].
    now rewrite app_nil_r.
Qed.

Lemma stream_error_leaves_no_assistant_turn_witness :
  App.chat_submit (App.mock_post [line_A; line_boom]) default_settings
    App.initial_messages (Some (lit "hi"))
  = (App.initial_messages ++ [App.message (lit "user") (lit "hi")],
     Some (RuntimeError (JStr (lit "boom"))))
  /\ App.chat_lines (lit "http://ollama:11434") ([line_A] ++ [line_boom]) None
     = ([JStr (lit "A")], Raises (RuntimeError (JStr (lit "boom")))).
Proof.
  split.
  - apply (proj1 (stream_error_leaves_no_assistant_turn
                    (App.mock_post [line_A; line_boom]) default_settings
                    App.initial_messages (lit "hi") ltac:(discriminate))
             [JStr (lit "A")]).
    reflexivity.
  - apply (proj2 (stream_error_leaves_no_assistant_turn
                    (App.mock_post [line_A; line_boom]) default_settings
                    App.initial_messages (lit "hi") ltac:(discriminate))
             (lit "http://ollama:11434") [line_A] line_boom
             [(lit "error", JStr (lit "boom"))] (JStr (lit "boom")) [] None).
    + repeat constructor.
    + reflexivity.
    + reflexivity.
Defined.

(** C1 as stated fails: the delta A is yielded, then the error record
    raises; the handler resets the collected response, so the conversation
    holds the system and user messages and no assistant turn with A. *)
Lemma partial_response_counterexample :
  App.stream_chat_ollama (App.mock_post [line_A; line_boom])
    (App.initial_messages ++ [App.message (lit "user") (lit "hi")])
    (App.model default_settings) (App.base_url default_settings)
    (App.temperature default_settings) (App.max_tokens default_settings)
  = ([JStr (lit "A")], Raises (RuntimeError (JStr (lit "boom"))))
  /\ fst (App.chat_submit (App.mock_post [line_A; line_boom])
            default_settings App.initial_messages (Some (lit "hi")))
     = [App.message (lit "system") (lit "You are a helpful AI assistant.");
        App.message (lit "user") (lit "hi")]
  /\ ~ In (App.message (lit "assistant") (lit "A"))
         (fst (App.chat_submit (App.mock_post [line_A; line_boom])
                 default_settings App.initial_messages (Some (lit "hi")))).
Proof.
  split; [reflexivity|]. split; [reflexivity|].
  intros [H|[H|[]]]; discriminate H.
Qed.

(** ** Pull stream consumer *)

Section PullProperties.

Variable default_base_url : option pystr.
Variable decode_utf8 : list N -> pystr.
Variable get : pystr -> outcome response.
Variable post : pystr -> json -> outcome stream_response.

Lemma pull_lines_items (raws : list (list N)) (tail : option RequestException) :
  AppV2.pull_lines decode_utf8 raws tail
  = (map decode_utf8 (filter nonempty raws)
       ++ match tail with
          | Some e => [AppV2.error_line e]
          | None => []
          end,
     Returns).
Proof.
  induction raws as [|raw raws IH]; cbn [AppV2.pull_lines filter map app].
  - now destruct tail.
  - destruct raw as [|c raw]; cbn [nonempty]; [exact IH|].
    rewrite IH. reflexivity.
Qed.

Lemma pull_model_stream_returns (model_name : pystr) (base_url : option pystr) :
  snd (AppV2.pull_model_stream default_base_url decode_utf8 post
         model_name base_url) = Returns.
Proof.
  unfold AppV2.pull_model_stream.
  destruct (post _ _) as [e|r]; [reflexivity|].
  destruct (s_raise_for_status r); [reflexivity|].
  now rewrite pull_lines_items.
Qed.

(** C4: when the request of the pull stream raises a connection error (or
    any other exception of the HTTP library), the consumer yields the one
    item "ERROR: " followed by the text of the exception, and returns; the
    pull stream never raises.  When the stream breaks after some progress
    lines, those lines are followed by the same single error item. *)
Theorem pull_failure_is_reported_in_band (model_name : pystr)
    (base_url : option pystr) (e : RequestException) :
  post (fstr (py_or base_url default_base_url) ++ lit "/api/pull")
       (JObj [(lit "name", JStr model_name)]) = Fails e ->
  AppV2.pull_model_stream default_base_url decode_utf8 post model_name base_url
  = ([lit "ERROR: " ++ message e], Returns)
  /\ (forall post' name url,
         snd (AppV2.pull_model_stream default_base_url decode_utf8 post'
                name url) = Returns)
  /\ (forall raws,
         AppV2.pull_lines decode_utf8 raws (Some e)
         = (map decode_utf8 (filter nonempty raws)
              ++ [lit "ERROR: " ++ message e], Returns)).
Proof.
  intros H. split; [|split].
  - unfold AppV2.pull_model_stream. now rewrite H.
  - intros post' name url. unfold AppV2.pull_model_stream.
    destruct (post' _ _) as [e'|r]; [reflexivity|].
    destruct (s_raise_for_status r); [reflexivity|].
    now rewrite pull_lines_items.
  - intros raws. now rewrite pull_lines_items.
Qed.

Lemma last_line_app (xs : list pystr) (l : pystr) :
  AppV2.last_line (xs ++ [l]) = l.
Proof.
  unfold AppV2.last_line. now rewrite fold_left_app.
Qed.

Lemma str_in_In (x : pystr) (l : list json) :
  AppV2.str_in x l = true <-> In (JStr x) l.
Proof.
  unfold AppV2.str_in. rewrite existsb_exists. split.
  - intros (v & Hin & Hv). destruct v; try discriminate.
    apply str_eqb_eq in Hv. now subst.
  - intros Hin. exists (JStr x). split; [exact Hin|apply str_eqb_refl].
Qed.

Lemma pull_items_nonempty (model_name : pystr) (base_url : option pystr) :
  (forall raw, raw <> [] -> decode_utf8 raw <> []) ->
  Forall (fun item => item <> [])
    (fst (AppV2.pull_model_stream default_base_url decode_utf8 post
            model_name base_url)).
Proof.
  intros Hdec. unfold AppV2.pull_model_stream.
  assert (Herr : forall e, AppV2.error_line e <> []) by (intros e; discriminate).
  destruct (post _ _) as [e|r]; cbn [fst]; [repeat constructor; apply Herr|].
  destruct (s_raise_for_status r); cbn [fst]; [repeat constructor; apply Herr|].
  rewrite pull_lines_items. cbn [fst].
  apply Forall_app. split.
  - apply Forall_forall. intros item Hin.
    apply in_map_iff in Hin as (raw & <- & Hraw).
    apply filter_In in Hraw as [_ Hne].
    apply Hdec. now destruct raw.
  - destruct (broken r); repeat constructor. apply Herr.
Qed.

(** C5: once the pull stream is exhausted the handler queries the catalog
    again and reports by membership alone: success when the pulled name is
    in the list of names just returned, failure otherwise, whatever the
    stream yielded.  On failure it shows the last item of the stream, or
    "<no output>" when the stream yielded nothing. *)
Theorem pull_outcome_is_catalog_membership (pull_choice : pystr)
    (new_pulled : list json) (data : json) :
  AppV2.get_pulled_models default_base_url get None
  = Return (new_pulled, data) ->
  (forall raw, raw <> [] -> decode_utf8 raw <> []) ->
  let items :=
    fst (AppV2.pull_model_stream default_base_url decode_utf8 post
           pull_choice None) in
  AppV2.pull_button default_base_url decode_utf8 get post pull_choice
  = Return
      (map AppV2.ProgressText items
         ++ if AppV2.str_in pull_choice new_pulled
            then [AppV2.Success (AppV2.success_msg pull_choice); AppV2.Rerun]
            else [AppV2.Error (AppV2.failure_msg pull_choice);
                  AppV2.Text
                    (lit "Last output from pull:" ++ [10%N]
                       ++ match items with
                          | [] => lit "<no output>"
                          | _ :: _ => last items []
                          end)])
  /\ (AppV2.str_in pull_choice new_pulled = true
      <-> In (JStr pull_choice) new_pulled).
Proof.
  intros Hget Hdec items. split; [|apply str_in_In].
  unfold AppV2.pull_button.
  rewrite pull_model_stream_returns, Hget. cbn [bind fst].
  fold items.
  destruct (AppV2.str_in pull_choice new_pulled); [reflexivity|].
  do 5 f_equal.
  pose proof (pull_items_nonempty pull_choice None Hdec) as Hne.
  fold items in Hne.
  destruct items as [|i items'] using rev_ind; [reflexivity|].
  rewrite last_line_app, last_last.
  apply Forall_app in Hne as [_ Hi]. inversion Hi as [|? ? Hi' _]; subst.
  destruct i; [congruence|].
  now destruct items'.
Qed.

End PullProperties.

Lemma pull_failure_is_reported_in_band_witness :
  AppV2.pull_model_stream (Some (lit "http://ollama:11434"))
    decode_ascii_replace refused_post (lit "llama3:7b") None
  = ([lit "ERROR: Connection refused"], Returns).
Proof.
  apply (proj1 (pull_failure_is_reported_in_band
                  (Some (lit "http://ollama:11434")) decode_ascii_replace
                  refused_post (lit "llama3:7b") None refused eq_refl)).
Defined.

Lemma decode_ascii_replace_nonempty (raw : list N) :
  raw <> [] -> decode_ascii_replace raw <> [].
Proof. destruct raw; [congruence|discriminate]. Qed.

Lemma pull_outcome_is_catalog_membership_witness :
  AppV2.pull_button (Some (lit "http://ollama:11434")) decode_ascii_replace
    (mock_get tags_body)
    (App.mock_post [dq "{'status':'pulling manifest'}"; [];
                    dq "{'status':'success'}"])
    (lit "llama2:13b")
  = Return
      [AppV2.ProgressText (dq "{'status':'pulling manifest'}");
       AppV2.ProgressText (dq "{'status':'success'}");
       AppV2.Success (AppV2.success_msg (lit "llama2:13b"));
       AppV2.Rerun]
  /\ AppV2.pull_button (Some (lit "http://ollama:11434")) decode_ascii_replace
       (mock_get tags_body) refused_post (lit "llama3:7b")
     = Return
         [AppV2.ProgressText (lit "ERROR: Connection refused");
          AppV2.Error (AppV2.failure_msg (lit "llama3:7b"));
          AppV2.Text (lit "Last output from pull:" ++ [10%N]
                        ++ lit "ERROR: Connection refused")]
  /\ AppV2.pull_button (Some (lit "http://ollama:11434")) decode_ascii_replace
       (mock_get tags_body) (App.mock_post []) (lit "llama3:7b")
     = Return
         [AppV2.Error (AppV2.failure_msg (lit "llama3:7b"));
          AppV2.Text (lit "Last output from pull:" ++ [10%N]
                        ++ lit "<no output>")].
Proof.
  split; [|split].
  - apply (proj1 (pull_outcome_is_catalog_membership
                    (Some (lit "http://ollama:11434")) decode_ascii_replace
                    (mock_get tags_body)
                    (App.mock_post [dq "{'status':'pulling manifest'}"; [];
                                    dq "{'status':'success'}"])
                    (lit "llama2:13b")
                    [JStr (lit "llama3.1:8b"); JStr (lit "llama2:13b")]
                    (match json_loads tags_body with
                     | Some v => v
                     | None => JNull
                     end)
                    eq_refl decode_ascii_replace_nonempty)).
  - apply (proj1 (pull_outcome_is_catalog_membership
                    (Some (lit "http://ollama:11434")) decode_ascii_replace
                    (mock_get tags_body) refused_post (lit "llama3:7b")
                    [JStr (lit "llama3.1:8b"); JStr (lit "llama2:13b")]
                    (match json_loads tags_body with
                     | Some v => v
                     | None => JNull
                     end)
                    eq_refl decode_ascii_replace_nonempty)).
  - apply (proj1 (pull_outcome_is_catalog_membership
                    (Some (lit "http://ollama:11434")) decode_ascii_replace
                    (mock_get tags_body) (App.mock_post []) (lit "llama3:7b")
                    [JStr (lit "llama3.1:8b"); JStr (lit "llama2:13b")]
                    (match json_loads tags_body with
                     | Some v => v
                     | None => JNull
                     end)
                    eq_refl decode_ascii_replace_nonempty)).
Defined.

(** ** Catalog query *)

Section CatalogProperties.

Variable default_base_url : option pystr.
Variable py_str : json -> pystr.
Variable get : pystr -> outcome response.

Lemma mapM_names (entries names : list json) :
  names_of entries names ->
  mapM (fun m => py_getitem m (lit "name")) entries = Return names.
Proof.
  induction 1 as [|m n entries names (d & -> & Hn) _ IH]; [reflexivity|].
  cbn [mapM py_getitem]. rewrite Hn. cbn [bind]. now rewrite IH.
Qed.

Lemma map_entry_names (entries names : list json) :
  names_of entries names ->
  map (AppV4.entry_name py_str) entries = names.
Proof.
  induction 1 as [|m n entries names (d & -> & Hn) _ IH]; [reflexivity|].
  cbn [map AppV4.entry_name]. now rewrite Hn, IH.
Qed.

(** C10: whenever the request, the status check or the decoding of the
    body raises an exception of the HTTP library, [get_pulled_models]
    returns the empty list with the text of the exception instead of
    raising; and on a response whose "models" entries are dicts with a
    "name" it returns exactly those names, in their order (with the decoded
    body).  Both hold for app-v2.py and for app-v4.py. *)
Theorem get_pulled_models_total (base_url : option pystr) :
  let url := fstr (py_or base_url default_base_url) ++ lit "/api/tags" in
  (forall e,
      request_failure (get url) = Some e ->
      AppV2.get_pulled_models default_base_url get base_url
      = Return ([], JStr (message e))
      /\ AppV4.get_pulled_models default_base_url py_str get base_url
         = Return ([], JStr (message e)))
  /\ (forall r d entries names,
         get url = Responds r ->
         raise_for_status r = None ->
         json_loads (text r) = Some (JObj d) ->
         dict_get (lit "models") d = Some (JArr entries) ->
         names_of entries names ->
         AppV2.get_pulled_models default_base_url get base_url
         = Return (names, JObj d)
         /\ AppV4.get_pulled_models default_base_url py_str get base_url
            = Return (names, JObj d)).
Proof.
  intros url. split.
  - intros e He.
    unfold AppV2.get_pulled_models, AppV4.get_pulled_models. fold url.
    unfold request_failure in He.
    destruct (get url) as [e'|r]; [now inversion He|].
    destruct (raise_for_status r) as [e'|]; [now inversion He|].
    destruct (response_json r) as [e'|data]; [now inversion He|discriminate].
  - intros r d entries names Hget Hst Hjs Hm Hn.
    unfold AppV2.get_pulled_models, AppV4.get_pulled_models. fold url.
    rewrite Hget, Hst. unfold response_json. rewrite Hjs.
    cbn [py_get]. rewrite Hm. cbn [bind py_iter].
    rewrite (mapM_names entries names Hn).
    now rewrite (map_entry_names entries names Hn).
Qed.

End CatalogProperties.

Lemma get_pulled_models_total_witness :
  (AppV2.get_pulled_models (Some (lit "http://ollama:11434")) refused_get None
   = Return ([], JStr (lit "Connection refused"))
   /\ AppV4.get_pulled_models (Some (lit "http://ollama:11434"))
        (fun _ => lit "?") refused_get None
      = Return ([], JStr (lit "Connection refused")))
  /\ (AppV2.get_pulled_models (Some (lit "http://ollama:11434"))
        (mock_get tags_body) None
      = Return ([JStr (lit "llama3.1:8b"); JStr (lit "llama2:13b")],
                JObj [(lit "models",
                       JArr [JObj [(lit "name", JStr (lit "llama3.1:8b"));
                                   (lit "size", JInt 4920753328)];
                             JObj [(lit "name", JStr (lit "llama2:13b"))]])])
      /\ AppV4.get_pulled_models (Some (lit "http://ollama:11434"))
           (fun _ => lit "?") (mock_get tags_body) None
         = Return ([JStr (lit "llama3.1:8b"); JStr (lit "llama2:13b")],
                   JObj [(lit "models",
                          JArr [JObj [(lit "name", JStr (lit "llama3.1:8b"));
                                      (lit "size", JInt 4920753328)];
                                JObj [(lit "name", JStr (lit "llama2:13b"))]])])).
Proof.
  split.
  - apply (proj1 (get_pulled_models_total (Some (lit "http://ollama:11434"))
                    (fun _ => lit "?") refused_get None) refused).
    reflexivity.
  - eapply (proj2 (get_pulled_models_total (Some (lit "http://ollama:11434"))
                     (fun _ => lit "?") (mock_get tags_body) None)).
    + reflexivity.
    + reflexivity.
    + vm_compute. reflexivity.
    + reflexivity.
    + repeat constructor.
      * eexists. split; reflexivity.
      * eexists. split; reflexivity.
Defined.

(** * Further properties *)

(** ** The chat stream beyond the claims *)


(** X2: once a line ends the loop (a true done flag, an error key, or a
    record that raises), nothing after it matters: neither the lines that
    follow nor a later break of the connection changes what the stream
    yields or how it ends. *)
Theorem nothing_is_read_after_the_end (b : pystr) (pre : list pystr)
    (line : pystr) (rest : list pystr) (tail : option RequestException) :
  snd (App.chat_line line) <> App.Continue ->
  App.chat_lines b (pre ++ line :: rest) tail
  = App.chat_lines b (pre ++ [line]) None.
Proof.
  intros Hend. induction pre as [|l pre IH]; cbn [app App.chat_lines].
  - destruct (App.chat_line line) as [out st]. cbn [snd] in Hend.
    destruct st; [congruence|reflexivity|reflexivity].
  - destruct (App.chat_line l) as [out st]. destruct st; try reflexivity.
    now rewrite IH.
Qed.

Lemma nothing_is_read_after_the_end_witness :
  App.chat_lines (lit "http://ollama:11434")
    ([line_A] ++ line_B :: [line_boom; line_A]) (Some refused)
  = App.chat_lines (lit "http://ollama:11434") ([line_A] ++ [line_B]) None.
Proof.
  apply (nothing_is_read_after_the_end (lit "http://ollama:11434")
           [line_A] line_B [line_boom; line_A] (Some refused)).
  vm_compute. discriminate.
Defined.

Lemma chat_record_truthy (data : json) :
  Forall (fun v => truthy v = true) (fst (App.chat_record data)).
Proof.
  unfold App.chat_record.
  destruct (py_contains (lit "error") data) as [[|]|e]; cbn [fst];
    [destruct (py_getitem data (lit "error")); constructor| |constructor].
  destruct (py_get data (lit "message") (JObj [])) as [msg|e];
    [|constructor].
  destruct (py_get msg (lit "content") (JStr [])) as [chunk|e];
    [|constructor].
  assert (H : Forall (fun v => truthy v = true)
                (if truthy chunk then [chunk] else []))
    by (destruct (truthy chunk) eqn:Ht; repeat constructor; exact Ht).
  now destruct (py_get data (lit "done") JNull).
Qed.

Lemma chat_lines_truthy (b : pystr) (ls : list pystr)
    (tail : option RequestException) :
  Forall (fun v => truthy v = true) (fst (App.chat_lines b ls tail)).
Proof.
  induction ls as [|line ls IH]; cbn [App.chat_lines].
  - destruct tail; constructor.
  - assert (Hl : Forall (fun v => truthy v = true) (fst (App.chat_line line))).
    { unfold App.chat_line. destruct (App.classify line);
        [constructor|constructor|apply chat_record_truthy]. }
    destruct (App.chat_line line) as [out st]. cbn [fst] in Hl.
    destruct st; cbn [fst]; try exact Hl.
    destruct (App.chat_lines b ls tail) as [items fin]. cbn [fst] in *.
    apply Forall_app. now split.
Qed.

(** X3: every delta the chat stream yields is true in Python's sense; in
    particular a text delta is never the empty string and [None] is never
    yielded, whatever the server sends. *)
Theorem deltas_are_never_empty
    (post : pystr -> json -> outcome stream_response)
    (messages : list json) (model : json) (base_url : option pystr)
    (temperature : pyfloat) (max_tokens : Z) :
  let items :=
    fst (App.stream_chat_ollama post messages model base_url temperature
           max_tokens) in
  Forall (fun v => truthy v = true) items
  /\ ~ In (JStr []) items
  /\ ~ In JNull items.
Proof.
  intros items.
  assert (H : Forall (fun v => truthy v = true) items).
  { unfold items, App.stream_chat_ollama.
    destruct base_url as [b|]; [|constructor].
    destruct (post _ _) as [e|r]; [constructor|].
    destruct (s_raise_for_status r); [constructor|].
    apply chat_lines_truthy. }
  split; [exact H|].
  rewrite Forall_forall in H.
  split; intros Hin; apply H in Hin; discriminate Hin.
Qed.

(** X4: a chat request that cannot be made (the transport raises, or the
    status is an HTTP error) yields nothing and raises the RuntimeError
    "Failed to reach Ollama at <base_url>: <cause>"; the handler shows it
    and the conversation keeps the user message only.  Without a base URL
    the stream raises AttributeError, with the same effect. *)
Theorem unreachable_server_is_reported
    (post : pystr -> json -> outcome stream_response)
    (cfg : App.settings) (messages : list json) (prompt : pystr) :
  prompt <> [] ->
  (forall b e,
      App.base_url cfg = Some b ->
      stream_failure
        (post (rstrip_char 47 b ++ lit "/api/chat")
           (JObj (App.chat_payload
                    (messages ++ [App.message (lit "user") prompt])
                    (App.model cfg) (App.temperature cfg)
                    (App.max_tokens cfg))))
      = Some e ->
      App.chat_submit post cfg messages (Some prompt)
      = (messages ++ [App.message (lit "user") prompt],
         Some (RuntimeError
                 (JStr (lit "Failed to reach Ollama at " ++ b ++ lit ": "
                        ++ message e)))))
  /\ (App.base_url cfg = None ->
      App.chat_submit post cfg messages (Some prompt)
      = (messages ++ [App.message (lit "user") prompt],
         Some AttributeError)).
Proof.
  intros Hp. split.
  - intros b e Hb Hf. rewrite chat_submit_unfold by exact Hp. cbv zeta.
    unfold App.stream_chat_ollama, py_list_append. rewrite Hb.
    unfold stream_failure in Hf.
    destruct (post _ _) as [e'|r].
    + injection Hf as ->. reflexivity.
    + rewrite Hf. reflexivity.
  - intros Hb. rewrite chat_submit_unfold by exact Hp. cbv zeta.
    unfold App.stream_chat_ollama. rewrite Hb. reflexivity.
Qed.

Lemma unreachable_server_is_reported_witness :
  App.chat_submit refused_post default_settings App.initial_messages
    (Some (lit "hi"))
  = (App.initial_messages ++ [App.message (lit "user") (lit "hi")],
     Some (RuntimeError
             (JStr (lit "Failed to reach Ollama at http://ollama:11434: Connection refused"))))
  /\ App.chat_submit refused_post
       {| App.base_url := None; App.model := JNull;
          App.temperature := FDec false 7 (-1); App.max_tokens := 0 |}
       App.initial_messages (Some (lit "hi"))
     = (App.initial_messages ++ [App.message (lit "user") (lit "hi")],
        Some AttributeError).
Proof.
  split.
  - apply (proj1 (unreachable_server_is_reported refused_post
                    default_settings App.initial_messages (lit "hi")
                    ltac:(discriminate))
             (lit "http://ollama:11434") refused);
      reflexivity.
  - apply (proj2 (unreachable_server_is_reported refused_post
                    {| App.base_url := None; App.model := JNull;
                       App.temperature := FDec false 7 (-1);
                       App.max_tokens := 0 |}
                    App.initial_messages (lit "hi") ltac:(discriminate))).
    reflexivity.
Defined.

(** X5: a connection that breaks before any line ended the loop makes the
    stream raise the same RuntimeError after the deltas of the lines read so
    far. *)
Theorem broken_stream_raises_after_its_deltas (b : pystr)
    (ls : list pystr) (e : RequestException) :
  Forall (fun l => snd (App.chat_line l) = App.Continue) ls ->
  App.chat_lines b ls (Some e)
  = (flat_map (fun l => fst (App.chat_line l)) ls,
     Raises (RuntimeError
               (JStr (lit "Failed to reach Ollama at " ++ b ++ lit ": "
                      ++ message e)))).
Proof.
  intros H.
  rewrite <- (app_nil_r ls) at 1.
  rewrite (chat_lines_continue b ls [] (Some e) H).
  cbn [App.chat_lines fst snd]. now rewrite app_nil_r.
Qed.

Lemma broken_stream_raises_after_its_deltas_witness :
  App.chat_lines (lit "http://ollama:11434") [line_A; lit "ping"] (Some refused)
  = ([JStr (lit "A")],
     Raises (RuntimeError
               (JStr (lit "Failed to reach Ollama at http://ollama:11434: Connection refused")))).
Proof.
  apply (broken_stream_raises_after_its_deltas (lit "http://ollama:11434")
           [line_A; lit "ping"] refused).
  repeat constructor.
Defined.

Lemma lstrip_char_repeat (c : N) (n : nat) (t : pystr) :
  lstrip_char c (repeat c n ++ t) = lstrip_char c t.
Proof.
  induction n as [|n IH]; [reflexivity|].
  cbn [repeat app lstrip_char]. now rewrite N.eqb_refl.
Qed.

Lemma rev_repeat_eq (c : N) (n : nat) : rev (repeat c n) = repeat c n.
Proof.
  induction n as [|n IH]; [reflexivity|].
  cbn [repeat rev]. rewrite IH. symmetry. apply repeat_cons.
Qed.

Lemma rstrip_char_repeat (c : N) (s : pystr) (n : nat) :
  rstrip_char c (s ++ repeat c n) = rstrip_char c s.
Proof.
  unfold rstrip_char.
  now rewrite rev_app_distr, rev_repeat_eq, lstrip_char_repeat.
Qed.

Lemma lstrip_char_head (c : N) (s : pystr) :
  match lstrip_char c s with
  | [] => True
  | x :: _ => x <> c
  end.
Proof.
  induction s as [|y s IH]; [exact I|].
  cbn [lstrip_char]. destruct (N.eqb_spec y c); [exact IH|assumption].
Qed.

Lemma rstrip_char_last (c : N) (s t : pystr) (x : N) :
  rstrip_char c s = t ++ [x] -> x <> c.
Proof.
  unfold rstrip_char. intros H.
  apply (f_equal (@rev N)) in H.
  rewrite rev_involutive, rev_app_distr in H. cbn [rev app] in H.
  pose proof (lstrip_char_head c (rev s)) as Hh. now rewrite H in Hh.
Qed.

Lemma chat_lines_base (b b' : pystr) (ls : list pystr) :
  App.chat_lines b ls None = App.chat_lines b' ls None.
Proof.
  induction ls as [|line ls IH]; [reflexivity|].
  cbn [App.chat_lines]. now rewrite IH.
Qed.

(** X6: slashes at the end of the base URL are dropped before "/api/chat"
    is added, so the request URL never has a doubled slash there, and a
    base URL written with trailing slashes reaches the same URL; when the
    server answers and the stream does not break, the outcome is the same
    as without them. *)
Theorem trailing_slashes_are_ignored
    (post : pystr -> json -> outcome stream_response)
    (messages : list json) (model : json) (b : pystr) (n : nat)
    (temperature : pyfloat) (max_tokens : Z) (r : stream_response) :
  post (rstrip_char 47 b ++ lit "/api/chat")
    (JObj (App.chat_payload messages model temperature max_tokens))
  = Responds r ->
  s_raise_for_status r = None ->
  broken r = None ->
  rstrip_char 47 (b ++ repeat 47%N n) = rstrip_char 47 b
  /\ (forall t x, rstrip_char 47 b = t ++ [x] -> x <> 47%N)
  /\ App.stream_chat_ollama post messages model
       (Some (b ++ repeat 47%N n)) temperature max_tokens
     = App.stream_chat_ollama post messages model (Some b) temperature
         max_tokens.
Proof.
  intros Hpost Hst Hbr. split; [apply rstrip_char_repeat|].
  split; [intros t x; apply rstrip_char_last|].
  unfold App.stream_chat_ollama.
  rewrite rstrip_char_repeat, Hpost, Hst, Hbr.
  apply chat_lines_base.
Qed.

Lemma trailing_slashes_are_ignored_witness :
  App.stream_chat_ollama (App.mock_post [line_A; line_B]) [] JNull
    (Some (lit "http://ollama:11434" ++ repeat 47%N 2))
    (FDec false 7 (-1)) 0
  = App.stream_chat_ollama (App.mock_post [line_A; line_B]) [] JNull
      (Some (lit "http://ollama:11434")) (FDec false 7 (-1)) 0.
Proof.
  eapply (trailing_slashes_are_ignored (App.mock_post [line_A; line_B])
            [] JNull (lit "http://ollama:11434") 2 (FDec false 7 (-1)) 0);
    reflexivity.
Defined.

Lemma chat_payload_fields (messages : list json) (model : json)
    (temperature : pyfloat) (max_tokens : Z) :
  let payload := App.chat_payload messages model temperature max_tokens in
  dict_get (lit "model") payload = Some model
  /\ dict_get (lit "messages") payload = Some (JArr messages)
  /\ dict_get (lit "stream") payload = Some (JBool true)
  /\ map fst payload
     = [lit "model"; lit "messages"; lit "stream"; lit "options"].
Proof.
  unfold App.chat_payload.
  destruct (truthy (JInt max_tokens) && (0 <? max_tokens)%Z);
    repeat split; reflexivity.
Qed.

(** X7: the handler talks to the server through one request only, to
    "<base_url without trailing slashes>/api/chat", whose body has the keys
    model, messages, stream and options, streams, and carries the whole
    conversation in order with the new user message last: two transports
    that answer this request alike give the same conversation and the same
    error. *)
Theorem chat_submit_makes_one_request
    (post post' : pystr -> json -> outcome stream_response)
    (cfg : App.settings) (messages : list json) (prompt b : pystr) :
  let log := messages ++ [App.message (lit "user") prompt] in
  let payload :=
    App.chat_payload log (App.model cfg) (App.temperature cfg)
      (App.max_tokens cfg) in
  App.base_url cfg = Some b ->
  post (rstrip_char 47 b ++ lit "/api/chat") (JObj payload)
  = post' (rstrip_char 47 b ++ lit "/api/chat") (JObj payload) ->
  App.chat_submit post cfg messages (Some prompt)
  = App.chat_submit post' cfg messages (Some prompt)
  /\ dict_get (lit "messages") payload = Some (JArr log)
  /\ dict_get (lit "model") payload = Some (App.model cfg)
  /\ dict_get (lit "stream") payload = Some (JBool true)
  /\ map fst payload
     = [lit "model"; lit "messages"; lit "stream"; lit "options"].
Proof.
  intros log payload Hb Hpost.
  pose proof (chat_payload_fields log (App.model cfg) (App.temperature cfg)
                (App.max_tokens cfg)) as (Hm & Hms & Hs & Hk).
  repeat split; try assumption.
  destruct prompt as [|c prompt]; [reflexivity|].
  rewrite !chat_submit_unfold by discriminate. cbv zeta.
  unfold App.stream_chat_ollama, py_list_append. rewrite Hb.
  fold log. fold payload. now rewrite Hpost.
Qed.

Lemma chat_submit_makes_one_request_witness :
  App.chat_submit (App.mock_post [line_A; line_B]) default_settings
    App.initial_messages (Some (lit "hi"))
  = App.chat_submit
      (fun url body =>
         if str_eqb url (lit "http://ollama:11434/api/chat")
         then App.mock_post [line_A; line_B] url body
         else Fails refused)
      default_settings App.initial_messages (Some (lit "hi")).
Proof.
  apply (chat_submit_makes_one_request
           (App.mock_post [line_A; line_B])
           (fun url body =>
              if str_eqb url (lit "http://ollama:11434/api/chat")
              then App.mock_post [line_A; line_B] url body
              else Fails refused)
           default_settings App.initial_messages (lit "hi")
           (lit "http://ollama:11434"));
    reflexivity.
Defined.

(** ** The conversation over a session *)

Lemma chat_submit_appends
    (post : pystr -> json -> outcome stream_response)
    (cfg : App.settings) (messages : list json) (user_prompt : option pystr) :
  fst (App.chat_submit post cfg messages user_prompt) = messages
  \/ exists prompt,
       user_prompt = Some prompt /\ prompt <> []
       /\ (fst (App.chat_submit post cfg messages user_prompt)
           = messages ++ [App.message (lit "user") prompt]
           \/ exists answer,
                visible answer = true
                /\ fst (App.chat_submit post cfg messages user_prompt)
                   = messages ++ [App.message (lit "user") prompt;
                                  App.message (lit "assistant") answer]).
Proof.
  destruct user_prompt as [[|c prompt]|]; [now left| |now left].
  right. exists (c :: prompt). split; [reflexivity|]. split; [discriminate|].
  rewrite chat_submit_unfold by discriminate. cbv zeta. cbn [fst].
  destruct (App.collect _) as [full shown]. cbn [fst].
  destruct (visible full) eqn:Hv.
  - right. exists full. split; [exact Hv|].
    unfold py_list_append. now rewrite <- app_assoc.
  - now left.
Qed.

(** X8: the chat handler only ever appends to the conversation: what was
    there stays, in order; without input (none, or the empty string)
    nothing changes; otherwise the user message is added, followed by at
    most one assistant message, whose content then has a character that is
    not white space. *)
Theorem chat_submit_only_appends
    (post : pystr -> json -> outcome stream_response)
    (cfg : App.settings) (messages : list json) (user_prompt : option pystr) :
  let log := fst (App.chat_submit post cfg messages user_prompt) in
  firstn (List.length messages) log = messages
  /\ List.length messages <= List.length log <= List.length messages + 2
  /\ (user_prompt = None \/ user_prompt = Some [] -> log = messages)
  /\ (forall prompt,
         user_prompt = Some prompt -> prompt <> [] ->
         nth_error log (List.length messages)
         = Some (App.message (lit "user") prompt)
         /\ forall m, nth_error log (S (List.length messages)) = Some m ->
              exists answer,
                visible answer = true
                /\ m = App.message (lit "assistant") answer).
Proof.
  intros log.
  pose proof (chat_submit_appends post cfg messages user_prompt) as H.
  fold log in H.
  assert (Hpre : forall suffix, firstn (List.length messages) (messages ++ suffix)
                                = messages).
  { intros suffix. rewrite firstn_app, Nat.sub_diag, firstn_all.
    cbn [firstn]. apply app_nil_r. }
  split; [|split; [|split]].
  - destruct H as [-> | (p & _ & _ & [-> | (a & _ & ->)])];
      [apply firstn_all|apply Hpre|apply Hpre].
  - destruct H as [-> | (p & _ & _ & [-> | (a & _ & ->)])];
      rewrite ?length_app; cbn [List.length]; lia.
  - intros [-> | ->]; reflexivity.
  - intros prompt -> Hp.
    destruct H as [H | (p & [= <-] & _ & H)].
    + exfalso. unfold log in H. rewrite chat_submit_unfold in H by exact Hp.
      cbv zeta in H. cbn [fst] in H. unfold py_list_append in H.
      destruct (visible _) in H;
        apply (f_equal (@List.length json)) in H;
        rewrite ?length_app in H; cbn [List.length] in H; lia.
    + destruct H as [-> | (a & Ha & ->)].
      * split.
        -- rewrite nth_error_app2, Nat.sub_diag by lia. reflexivity.
        -- intros m Hm. rewrite nth_error_app2 in Hm by lia.
           replace (S (List.length messages) - List.length messages)
             with 1 in Hm by lia.
           discriminate Hm.
      * split.
        -- rewrite nth_error_app2, Nat.sub_diag by lia. reflexivity.
        -- intros m Hm. rewrite nth_error_app2 in Hm by lia.
           replace (S (List.length messages) - List.length messages)
             with 1 in Hm by lia.
           injection Hm as <-. now exists a.
Qed.

Lemma render_history_turns (turns : list (pystr * pystr)) :
  Forall (fun rc => fst rc <> lit "system") turns ->
  App.render_history (map turn_message turns)
  = (flat_map (fun rc => [App.ChatMessage (JStr (fst rc));
                          App.Markdown (JStr (snd rc))]) turns,
     Returns).
Proof.
  induction 1 as [|[r c] turns Hr _ IH]; [reflexivity|].
  cbn [map flat_map App.render_history].
  change (turn_message (r, c)) with (App.message r c).
  cbn [fst snd] in Hr |- *.
  assert (Hrole : py_getitem (App.message r c) (lit "role") = Return (JStr r))
    by reflexivity.
  assert (Hcont : py_getitem (App.message r c) (lit "content")
                  = Return (JStr c)) by reflexivity.
  rewrite Hrole, Hcont. cbn [eq_str].
  destruct (str_eqb (lit "system") r) eqn:E.
  - apply str_eqb_eq in E. congruence.
  - rewrite IH. reflexivity.
Qed.

Lemma render_history_initial (l : list json) :
  App.render_history (App.initial_messages ++ l) = App.render_history l.
Proof. reflexivity. Qed.

Lemma turns_not_system (turns : list (pystr * pystr)) :
  Forall (fun rc => fst rc = lit "user" \/ fst rc = lit "assistant") turns ->
  Forall (fun rc => fst rc <> lit "system") turns.
Proof.
  apply Forall_impl. intros [r c] [H|H]; cbn [fst] in *; subst; discriminate.
Qed.

(** X9: the history shown above the input box is every message of the
    conversation except the system ones, each as a chat message with its
    role followed by its content, in the order of the conversation; on a
    conversation made of the preamble and user and assistant turns nothing
    is raised.  A message without a role stops the rendering with
    KeyError. *)
Theorem history_shows_all_but_system (turns : list (pystr * pystr)) :
  Forall (fun rc => fst rc <> lit "system") turns ->
  App.render_history (App.initial_messages ++ map turn_message turns)
  = (flat_map (fun rc => [App.ChatMessage (JStr (fst rc));
                          App.Markdown (JStr (snd rc))]) turns,
     Returns)
  /\ (forall d rest,
         dict_get (lit "role") d = None ->
         App.render_history (map turn_message turns ++ JObj d :: rest)
         = (flat_map (fun rc => [App.ChatMessage (JStr (fst rc));
                                 App.Markdown (JStr (snd rc))]) turns,
            Raises (KeyError (lit "role")))).
Proof.
  intros H. split.
  - rewrite render_history_initial. now apply render_history_turns.
  - intros d rest Hd. induction H as [|[r c] turns Hr _ IH].
    + cbn [map app flat_map App.render_history py_getitem]. now rewrite Hd.
    + cbn [map app flat_map App.render_history].
      change (turn_message (r, c)) with (App.message r c).
      cbn [fst snd] in Hr |- *.
      assert (Hrole : py_getitem (App.message r c) (lit "role")
                      = Return (JStr r)) by reflexivity.
      assert (Hcont : py_getitem (App.message r c) (lit "content")
                      = Return (JStr c)) by reflexivity.
      rewrite Hrole, Hcont. cbn [eq_str].
      destruct (str_eqb (lit "system") r) eqn:E.
      * apply str_eqb_eq in E. congruence.
      * rewrite IH. reflexivity.
Qed.

Lemma history_shows_all_but_system_witness :
  App.render_history
    (App.initial_messages
       ++ map turn_message [(lit "user", lit "hi"); (lit "assistant", lit "AB")])
  = ([App.ChatMessage (JStr (lit "user")); App.Markdown (JStr (lit "hi"));
      App.ChatMessage (JStr (lit "assistant")); App.Markdown (JStr (lit "AB"))],
     Returns).
Proof.
  apply (proj1 (history_shows_all_but_system
                  [(lit "user", lit "hi"); (lit "assistant", lit "AB")]
                  ltac:(repeat constructor; discriminate))).
Defined.

Lemma conversation_initial : conversation App.initial_messages.
Proof.
  exists []. split; [symmetry; apply app_nil_r|constructor].
Qed.

Lemma conversation_app (log : list json) (turns : list (pystr * pystr)) :
  conversation log ->
  Forall (fun rc => fst rc = lit "user" \/ fst rc = lit "assistant") turns ->
  conversation (log ++ map turn_message turns).
Proof.
  intros (ts & -> & Hts) H. exists (ts ++ turns). split.
  - now rewrite map_app, app_assoc.
  - apply Forall_app. now split.
Qed.

Lemma script_conversation
    (post : pystr -> json -> outcome stream_response)
    (cfg : App.settings) (state : option (list json)) (clear : bool)
    (user_prompt : option pystr) :
  (forall log, state = Some log -> conversation log) ->
  conversation (App.script post cfg state clear user_prompt).
Proof.
  intros Hst. unfold App.script.
  assert (Hinit : conversation (App.init_messages state clear)).
  { unfold App.init_messages. destruct state as [log|];
      [destruct clear|]; auto using conversation_initial. }
  destruct (snd (App.render_history _)); [|exact Hinit].
  destruct (chat_submit_appends post cfg (App.init_messages state clear)
              user_prompt) as [-> | (p & _ & _ & [-> | (a & _ & ->)])].
  - exact Hinit.
  - apply (conversation_app _ [(lit "user", p)] Hinit).
    apply Forall_cons; [now left|apply Forall_nil].
  - apply (conversation_app _ [(lit "user", p); (lit "assistant", a)] Hinit).
    apply Forall_cons; [now left|].
    apply Forall_cons; [now right|apply Forall_nil].
Qed.

Lemma session_conversation (runs : list App.run) :
  forall state log,
    (forall l, state = Some l -> conversation l) ->
    App.session state runs = Some log -> conversation log.
Proof.
  induction runs as [|r runs IH]; intros state log Hst H.
  - now apply Hst.
  - cbn [App.session] in H. eapply IH; [|exact H].
    intros l [= <-]. now apply script_conversation.
Qed.

Lemma conversation_system (log : list json) :
  conversation log ->
  nth_error log 0
  = Some (App.message (lit "system") (lit "You are a helpful AI assistant."))
  /\ filter is_system log
     = [App.message (lit "system") (lit "You are a helpful AI assistant.")].
Proof.
  intros (turns & -> & H). split; [reflexivity|].
  rewrite filter_app. change (filter is_system App.initial_messages)
    with App.initial_messages.
  assert (Hf : filter is_system (map turn_message turns) = []).
  { induction H as [|[r c] turns Hr _ IH]; [reflexivity|].
    cbn [map filter]. rewrite IH.
    replace (is_system (turn_message (r, c))) with (str_eqb (lit "system") r)
      by reflexivity.
    cbn [fst] in Hr.
    destruct Hr as [-> | ->]; reflexivity. }
  rewrite Hf. reflexivity.
Qed.

(** X10: in a session that starts without state, whatever the transports
    do and whatever is typed or cleared, after every run the conversation
    is the system preamble followed by user and assistant messages only:
    the preamble is the first message and the only one with the system
    role, and the history can always be rendered. *)
Theorem session_keeps_one_system_message (runs : list App.run)
    (log : list json) :
  App.session None runs = Some log ->
  conversation log
  /\ nth_error log 0
     = Some (App.message (lit "system") (lit "You are a helpful AI assistant."))
  /\ filter is_system log
     = [App.message (lit "system") (lit "You are a helpful AI assistant.")]
  /\ snd (App.render_history log) = Returns.
Proof.
  intros H.
  assert (Hc : conversation log)
    by (apply (session_conversation runs None log); [discriminate|exact H]).
  split; [exact Hc|].
  destruct (conversation_system log Hc) as [H0 Hf].
  repeat split; try assumption.
  destruct Hc as (turns & -> & Ht).
  rewrite render_history_initial.
  now rewrite (render_history_turns turns (turns_not_system turns Ht)).
Qed.

Lemma session_keeps_one_system_message_witness :
  App.session None
    [{| App.transport := refused_post; App.sidebar := default_settings;
        App.clear_pressed := false; App.typed := Some (lit "hi") |};
     {| App.transport := App.mock_post [line_A; line_B];
        App.sidebar := default_settings;
        App.clear_pressed := false; App.typed := Some (lit "again") |}]
  = Some (App.initial_messages
            ++ map turn_message
                 [(lit "user", lit "hi"); (lit "user", lit "again");
                  (lit "assistant", lit "AB")])
  /\ conversation
       (App.initial_messages
          ++ map turn_message
               [(lit "user", lit "hi"); (lit "user", lit "again");
                (lit "assistant", lit "AB")]).
Proof.
  split; [reflexivity|].
  apply (session_keeps_one_system_message
           [{| App.transport := refused_post; App.sidebar := default_settings;
               App.clear_pressed := false; App.typed := Some (lit "hi") |};
            {| App.transport := App.mock_post [line_A; line_B];
               App.sidebar := default_settings;
               App.clear_pressed := false; App.typed := Some (lit "again") |}]).
  reflexivity.
Defined.

(** ** The sidebar beyond the claims *)

(** X11: the health check of app-v2.py never raises and answers true only
    for a response with status 200 whose body is JSON, which it then
    returns; for any other status, error or not, it answers false with
    "Unexpected status: <code>" (the status is not turned into an
    exception), and for an exception of the HTTP library false with its
    text. *)
Theorem health_check_wants_status_200 (default_base_url : option pystr)
    (get : pystr -> outcome response) (base_url : option pystr) :
  let url := fstr (py_or base_url default_base_url) ++ lit "/api/tags" in
  let health := AppV2.check_ollama_health default_base_url get base_url in
  (fst health = true
   <-> exists r, get url = Responds r /\ status_code r = 200%Z
                 /\ json_loads (text r) = Some (snd health))
  /\ (fst health = false -> exists t, snd health = JStr t)
  /\ (forall r, get url = Responds r -> status_code r <> 200%Z ->
        health = (false, JStr (lit "Unexpected status: "
                               ++ py_str_int (status_code r))))
  /\ (forall e, get url = Fails e -> health = (false, JStr (message e))).
Proof.
  intros url health. unfold health, AppV2.check_ollama_health. fold url.
  destruct (get url) as [e|r] eqn:Hget.
  - cbn [fst snd]. split; [split|split; [|split]].
    + discriminate.
    + intros (r & Hr & _). discriminate Hr.
    + intros _. now eexists.
    + intros r Hr. discriminate Hr.
    + intros e' [= <-]. reflexivity.
  - destruct (Z.eqb_spec (status_code r) 200) as [H200|H200].
    + unfold response_json.
      destruct (json_loads (text r)) as [data|] eqn:Hjs; cbn [fst snd];
        (split; [split|split; [|split]]).
      * intros _. now exists r.
      * reflexivity.
      * discriminate.
      * intros r' [= <-] Hne. congruence.
      * intros e' He. discriminate He.
      * discriminate.
      * intros (r' & [= <-] & _ & Hjs'). congruence.
      * intros _. now eexists.
      * intros r' [= <-] Hne. congruence.
      * intros e' He. discriminate He.
    + cbn [fst snd]. split; [split|split; [|split]].
      * discriminate.
      * intros (r' & [= <-] & H & _). congruence.
      * intros _. now eexists.
      * intros r' [= <-] _. reflexivity.
      * intros e' He. discriminate He.
Qed.

Lemma health_check_wants_status_200_witness :
  AppV2.check_ollama_health (Some (lit "http://ollama:11434"))
    (fun _ => Responds {| status_code := 404; http_error_msg := lit "404 Client Error";
                          text := tags_body; json_error_msg := [] |})
    None
  = (false, JStr (lit "Unexpected status: 404")).
Proof.
  apply (proj1 (proj2 (proj2 (health_check_wants_status_200
                  (Some (lit "http://ollama:11434"))
                  (fun _ => Responds {| status_code := 404;
                                        http_error_msg := lit "404 Client Error";
                                        text := tags_body;
                                        json_error_msg := [] |})
                  None)))
           {| status_code := 404; http_error_msg := lit "404 Client Error";
              text := tags_body; json_error_msg := [] |}).
  - reflexivity.
  - discriminate.
Defined.

Lemma py_get_return (data : json) (k : pystr) (default v : json) :
  py_get data k default = Return v -> exists d, data = JObj d.
Proof. destruct data; try discriminate. intros _. now eexists. Qed.

Lemma catalog_result_shape (default_base_url : option pystr)
    (py_str : json -> pystr) (get : pystr -> outcome response)
    (base_url : option pystr) (models : list json) (info : json) :
  let url := fstr (py_or base_url default_base_url) ++ lit "/api/tags" in
  AppV2.get_pulled_models default_base_url get base_url
  = Return (models, info)
  \/ AppV4.get_pulled_models default_base_url py_str get base_url
     = Return (models, info) ->
  match request_failure (get url) with
  | Some e => models = [] /\ info = JStr (message e)
  | None =>
      exists r d, get url = Responds r /\ json_loads (text r) = Some info
                  /\ info = JObj d
  end.
Proof.
  intros url H.
  unfold AppV2.get_pulled_models, AppV4.get_pulled_models in H. fold url in H.
  unfold request_failure.
  destruct (get url) as [e|r].
  - destruct H as [[= <- <-] | [= <- <-]]; now split.
  - destruct (raise_for_status r) as [e|].
    + destruct H as [[= <- <-] | [= <- <-]]; now split.
    + unfold response_json in *.
      destruct (json_loads (text r)) as [data|] eqn:Hjs.
      * destruct (py_get data (lit "models") (JArr [])) as [entries|e] eqn:Hg;
          [|destruct H as [H|H]; discriminate H].
        apply py_get_return in Hg as (d & ->).
        exists r, d.
        assert (info = JObj d).
        { cbn [bind] in H.
          destruct (py_iter entries) as [ms|]; cbn [bind] in H;
            [|destruct H as [H|H]; discriminate H].
          destruct H as [H|H].
          - destruct (mapM _ ms); cbn [bind] in H; [|discriminate H].
            now injection H as _ <-.
          - now injection H as _ <-. }
        subst info. now repeat split.
      * destruct H as [[= <- <-] | [= <- <-]]; now split.
Qed.


(** X12: the second component of what [get_pulled_models] returns tells
    whether the query failed: it is a string, the text of the exception,
    together with an empty list exactly when the request, the status check
    or the decoding raised; otherwise it is the decoded body, which is then
    a dict.  This holds for app-v2.py and app-v4.py, and is what the health
    panels test. *)
Theorem catalog_result_tells_failure (default_base_url : option pystr)
    (py_str : json -> pystr) (get : pystr -> outcome response)
    (base_url : option pystr) (models : list json) (info : json) :
  let url := fstr (py_or base_url default_base_url) ++ lit "/api/tags" in
  AppV2.get_pulled_models default_base_url get base_url
  = Return (models, info)
  \/ AppV4.get_pulled_models default_base_url py_str get base_url
     = Return (models, info) ->
  match request_failure (get url) with
  | Some e => models = [] /\ info = JStr (message e)
  | None =>
      exists r d, get url = Responds r /\ json_loads (text r) = Some info
                  /\ info = JObj d
  end.
Proof.
  apply catalog_result_shape.
Qed.

Lemma catalog_result_tells_failure_witness :
  [] = @nil json /\ JStr (lit "Connection refused") = JStr (message refused).
Proof.
  apply (catalog_result_tells_failure (Some (lit "http://ollama:11434"))
           (fun _ => lit "?") refused_get None []
           (JStr (lit "Connection refused"))).
  left. reflexivity.
Defined.

Lemma mapM_names_then_missing (named names rest : list json) (d0 : dict) :
  names_of named names ->
  dict_get (lit "name") d0 = None ->
  mapM (fun m => py_getitem m (lit "name")) (named ++ JObj d0 :: rest)
  = Raise (KeyError (lit "name")).
Proof.
  intros Hn H0.
  induction Hn as [|m n named names (d & -> & Hd) _ IH].
  - cbn [app mapM py_getitem]. now rewrite H0.
  - cbn [app mapM py_getitem]. rewrite Hd. cbn [bind]. now rewrite IH.
Qed.

(** X13: on a decoded body without a "models" key both versions return
    the empty list with the body.  On an entry that is a dict without a
    "name", app-v2.py raises KeyError, whereas app-v4.py never raises on a
    list of entries: it returns one item for each entry, None for such a
    dict. *)
Theorem catalog_with_missing_keys (default_base_url : option pystr)
    (py_str : json -> pystr) (get : pystr -> outcome response)
    (base_url : option pystr) (r : response) (d : dict) :
  get (fstr (py_or base_url default_base_url) ++ lit "/api/tags")
  = Responds r ->
  raise_for_status r = None ->
  json_loads (text r) = Some (JObj d) ->
  (dict_get (lit "models") d = None ->
   AppV2.get_pulled_models default_base_url get base_url
   = Return ([], JObj d)
   /\ AppV4.get_pulled_models default_base_url py_str get base_url
      = Return ([], JObj d))
  /\ (forall entries,
         dict_get (lit "models") d = Some (JArr entries) ->
         exists models,
           AppV4.get_pulled_models default_base_url py_str get base_url
           = Return (models, JObj d)
           /\ List.length models = List.length entries)
  /\ (forall named names d0 rest,
         dict_get (lit "models") d = Some (JArr (named ++ JObj d0 :: rest)) ->
         names_of named names ->
         dict_get (lit "name") d0 = None ->
         AppV2.get_pulled_models default_base_url get base_url
         = Raise (KeyError (lit "name"))
         /\ exists after,
              AppV4.get_pulled_models default_base_url py_str get base_url
              = Return (names ++ JNull :: after, JObj d)).
Proof.
  intros Hget Hst Hjs.
  unfold AppV2.get_pulled_models, AppV4.get_pulled_models.
  rewrite Hget, Hst. unfold response_json. rewrite Hjs. cbn [py_get].
  split; [|split].
  - intros ->. split; reflexivity.
  - intros entries ->. cbn [bind py_iter]. eexists. split; [reflexivity|].
    apply length_map.
  - intros named names d0 rest -> Hn H0. cbn [bind py_iter]. split.
    + now rewrite (mapM_names_then_missing named names rest d0 Hn H0).
    + exists (map (AppV4.entry_name py_str) rest).
      rewrite map_app. cbn [map AppV4.entry_name]. rewrite H0.
      now rewrite (map_entry_names py_str named names Hn).
Qed.

Lemma catalog_with_missing_keys_witness :
  AppV2.get_pulled_models (Some (lit "http://ollama:11434"))
    (mock_get (dq "{'models':[{'name':'a'},{'size':1}]}")) None
  = Raise (KeyError (lit "name"))
  /\ AppV2.get_pulled_models (Some (lit "http://ollama:11434"))
       (mock_get (dq "{}")) None
     = Return ([], JObj []).
Proof.
  split.
  - eapply (proj2 (proj2 (catalog_with_missing_keys
              (Some (lit "http://ollama:11434")) (fun _ => lit "?")
              (mock_get (dq "{'models':[{'name':'a'},{'size':1}]}")) None
              _ _ eq_refl eq_refl ltac:(vm_compute; reflexivity)))
              [JObj [(lit "name", JStr (lit "a"))]] [JStr (lit "a")]
              [(lit "size", JInt 1)] []).
    + reflexivity.
    + repeat constructor. eexists. split; reflexivity.
    + reflexivity.
  - eapply (proj1 (catalog_with_missing_keys
              (Some (lit "http://ollama:11434")) (fun _ => lit "?")
              (mock_get (dq "{}")) None
              _ _ eq_refl eq_refl ltac:(vm_compute; reflexivity))).
    reflexivity.
Defined.

(** X14: the models offered for pulling are the available ones that are
    not in the catalog, in the order of the available list: a model that is
    already pulled is never offered.  When the pull action reports success
    for a name, the catalog it has just read no longer leaves that name on
    offer. *)
Theorem offered_models_are_not_pulled (default_base_url : option pystr)
    (decode_utf8 : list N -> pystr) (get : pystr -> outcome response)
    (post : pystr -> json -> outcome stream_response)
    (pulled : list json) :
  (forall m, In m (AppV2.models_to_pull pulled)
             <-> In m AppV2.available_models /\ ~ In (JStr m) pulled)
  /\ (AppV2.models_to_pull pulled = []
      <-> forall m, In m AppV2.available_models -> In (JStr m) pulled)
  /\ (forall pull_choice data events msg,
         AppV2.get_pulled_models default_base_url get None
         = Return (pulled, data) ->
         AppV2.pull_button default_base_url decode_utf8 get post pull_choice
         = Return events ->
         In (AppV2.Success msg) events ->
         ~ In pull_choice (AppV2.models_to_pull pulled)).
Proof.
  assert (Hin : forall m, In m (AppV2.models_to_pull pulled)
                          <-> In m AppV2.available_models /\ ~ In (JStr m) pulled).
  { intros m. unfold AppV2.models_to_pull. rewrite filter_In.
    rewrite negb_true_iff, <- not_true_iff_false.
    now rewrite (str_in_In m pulled). }
  split; [exact Hin|]. split.
  - split.
    + intros Hnil m Hm.
      destruct (AppV2.str_in m pulled) eqn:E; [now apply str_in_In|].
      exfalso. assert (In m (AppV2.models_to_pull pulled)) as Hc.
      { apply Hin. split; [exact Hm|].
        rewrite <- str_in_In. congruence. }
      now rewrite Hnil in Hc.
    + intros Hall.
      destruct (AppV2.models_to_pull pulled) as [|m l] eqn:E; [reflexivity|].
      assert (In m (m :: l)) as Hc by now left.
      apply Hin in Hc as [Hm Hn]. now apply Hall in Hm.
  - intros pull_choice data events msg Hget Hpull Hs Hoffer.
    apply Hin in Hoffer as [_ Hn].
    unfold AppV2.pull_button in Hpull.
    rewrite pull_model_stream_returns, Hget in Hpull. cbn [bind fst] in Hpull.
    destruct (AppV2.str_in pull_choice pulled) eqn:E.
    + apply str_in_In in E. contradiction.
    + injection Hpull as <-.
      apply in_app_or in Hs as [Hs|Hs].
      * apply in_map_iff in Hs as (x & Hx & _). discriminate Hx.
      * destruct Hs as [Hs|[Hs|[]]]; discriminate Hs.
Qed.

Lemma offered_models_are_not_pulled_witness :
  ~ In (lit "llama2:13b")
      (AppV2.models_to_pull [JStr (lit "llama3.1:8b"); JStr (lit "llama2:13b")]).
Proof.
  apply (proj2 (proj2 (offered_models_are_not_pulled
                  (Some (lit "http://ollama:11434")) decode_ascii_replace
                  (mock_get tags_body) (App.mock_post [])
                  [JStr (lit "llama3.1:8b"); JStr (lit "llama2:13b")]))
           (lit "llama2:13b")
           (match json_loads tags_body with Some v => v | None => JNull end)
           [AppV2.Success (AppV2.success_msg (lit "llama2:13b")); AppV2.Rerun]
           (AppV2.success_msg (lit "llama2:13b"))).
  - reflexivity.
  - reflexivity.
  - now left.
Defined.

(** X15: the pull action of app-v4.py does nothing unless the button was
    pressed and the typed name has a character that is not white space;
    otherwise it pulls and looks up the stripped name, and reports by the
    membership of the stripped name in the catalog read afterwards, while
    its messages quote the name as typed. *)
Theorem typed_name_is_stripped (default_base_url : option pystr)
    (py_str : json -> pystr) (get : pystr -> outcome response)
    (decode_utf8 : list N -> pystr)
    (post : pystr -> json -> outcome stream_response)
    (model_to_pull : pystr) :
  let pull := AppV4.pull_button default_base_url py_str get decode_utf8 post in
  let stream :=
    AppV2.pull_model_stream default_base_url decode_utf8 post
      (strip model_to_pull) None in
  pull model_to_pull false = Return []
  /\ (forallb py_isspace model_to_pull = true ->
      pull model_to_pull true = Return [])
  /\ (forall new_pulled data,
         forallb py_isspace model_to_pull = false ->
         AppV4.get_pulled_models default_base_url py_str get None
         = Return (new_pulled, data) ->
         pull model_to_pull true
         = Return
             (map AppV2.ProgressText (fst stream)
                ++ if AppV2.str_in (strip model_to_pull) new_pulled
                   then [AppV2.Success ([9989%N; 32%N] ++ model_to_pull
                                        ++ lit " pulled successfully");
                         AppV2.Rerun]
                   else [AppV2.Error ([10060%N] ++ lit " Pull finished but "
                                      ++ model_to_pull
                                      ++ lit " not found in pulled models.");
                         AppV2.Text (lit "Last output:" ++ [10%N]
                                     ++ AppV2.last_or_placeholder
                                          (AppV2.last_line (fst stream)))])).
Proof.
  intros pull stream. unfold pull, AppV4.pull_button.
  split; [reflexivity|]. split.
  - intros Hb. apply strip_nil in Hb. now rewrite Hb.
  - intros new_pulled data Hb Hget.
    assert (Hne : nonempty_str (strip model_to_pull) = true).
    { destruct (strip model_to_pull) eqn:E; [|reflexivity].
      apply strip_nil in E. congruence. }
    rewrite Hne. cbn [andb]. unfold AppV4.pull_model_stream. fold stream.
    unfold stream at 1. rewrite pull_model_stream_returns.
    rewrite Hget. cbn [bind fst].
    now destruct (AppV2.str_in (strip model_to_pull) new_pulled).
Qed.

Lemma typed_name_is_stripped_witness :
  AppV4.pull_button (Some (lit "http://ollama:11434")) (fun _ => lit "?")
    (mock_get tags_body) decode_ascii_replace (App.mock_post [])
    (lit "  llama2:13b ") true
  = Return [AppV2.Success ([9989%N; 32%N] ++ lit "  llama2:13b "
                           ++ lit " pulled successfully");
            AppV2.Rerun]
  /\ AppV4.pull_button (Some (lit "http://ollama:11434")) (fun _ => lit "?")
       (mock_get tags_body) decode_ascii_replace (App.mock_post [])
       (lit "   ") true
     = Return [].
Proof.
  split.
  - apply (proj2 (proj2 (typed_name_is_stripped
                    (Some (lit "http://ollama:11434")) (fun _ => lit "?")
                    (mock_get tags_body) decode_ascii_replace
                    (App.mock_post []) (lit "  llama2:13b ")))
             [JStr (lit "llama3.1:8b"); JStr (lit "llama2:13b")]
             (match json_loads tags_body with Some v => v | None => JNull end));
      reflexivity.
  - apply (proj1 (proj2 (typed_name_is_stripped
                    (Some (lit "http://ollama:11434")) (fun _ => lit "?")
                    (mock_get tags_body) decode_ascii_replace
                    (App.mock_post []) (lit "   "))));
      reflexivity.
Defined.

Lemma py_join_names (sep : pystr) (names : list pystr) :
  py_join sep (map JStr names) = Return (join_str sep names).
Proof.
  induction names as [|n names IH]; [reflexivity|].
  cbn [map py_join]. destruct names as [|n' names]; [reflexivity|].
  cbn [map] in IH |- *. rewrite IH. reflexivity.
Qed.

(** X16: both health panels show "Healthcheck failed: <text>" when the
    catalog query hit an exception of the HTTP library, and app-v2.py shows
    it only then.  On a reachable server without models app-v2.py shows
    "No models pulled yet." alone, app-v4.py shows the healthy banner
    first.  With models named by strings app-v2.py shows the banner, the
    names joined by ", " and the choice among them. *)
Theorem health_panel_reports_failures (default_base_url : option pystr)
    (py_str : json -> pystr) (get : pystr -> outcome response) :
  let url := fstr (py_or None default_base_url) ++ lit "/api/tags" in
  let failed t := SbError ([10060%N] ++ lit " Healthcheck failed: " ++ t) in
  let healthy := SbSuccess ([9989%N] ++ lit " Ollama healthy") in
  (forall e,
      request_failure (get url) = Some e ->
      AppV2.health_panel default_base_url get
      = ([failed (message e)], Returns)
      /\ AppV4.health_panel default_base_url py_str get
         = ([failed (message e)], Returns))
  /\ (forall msg,
         In (SbError msg) (fst (AppV2.health_panel default_base_url get)) ->
         exists e, request_failure (get url) = Some e
                   /\ AppV2.health_panel default_base_url get
                      = ([failed (message e)], Returns))
  /\ (forall d,
         AppV2.get_pulled_models default_base_url get None
         = Return ([], JObj d) ->
         AppV2.health_panel default_base_url get
         = ([SbInfo (lit "No models pulled yet.")], Returns))
  /\ (forall d,
         AppV4.get_pulled_models default_base_url py_str get None
         = Return ([], JObj d) ->
         AppV4.health_panel default_base_url py_str get
         = ([healthy; SbInfo (lit "No models pulled yet.")], Returns))
  /\ (forall n names data,
         AppV2.get_pulled_models default_base_url get None
         = Return (map JStr (n :: names), data) ->
         AppV2.health_panel default_base_url get
         = ([healthy;
             SbInfo (lit "Pulled: " ++ join_str (lit ", ") (n :: names));
             SbSelectbox (lit "Choose model") (map JStr (n :: names))],
            Returns)).
Proof.
  intros url failed healthy.
  assert (Hfail : forall e, request_failure (get url) = Some e ->
            AppV2.get_pulled_models default_base_url get None
            = Return ([], JStr (message e))
            /\ AppV4.get_pulled_models default_base_url py_str get None
               = Return ([], JStr (message e))).
  { intros e He.
    unfold AppV2.get_pulled_models, AppV4.get_pulled_models. fold url.
    unfold request_failure in He.
    destruct (get url) as [e'|r]; [now inversion He|].
    destruct (raise_for_status r) as [e'|]; [now inversion He|].
    destruct (response_json r) as [e'|data]; [now inversion He|discriminate]. }
  split; [|split; [|split; [|split]]].
  - intros e He. destruct (Hfail e He) as [H2 H4].
    unfold AppV2.health_panel, AppV4.health_panel. rewrite H2, H4.
    split; reflexivity.
  - intros msg Hin.
    unfold AppV2.health_panel in Hin |- *.
    destruct (AppV2.get_pulled_models default_base_url get None)
      as [[models info]|e] eqn:Hget; [|destruct Hin].
    pose proof (catalog_result_shape default_base_url py_str get None
                  models info (or_introl Hget)) as Hshape.
    cbv zeta in Hshape. fold url in Hshape.
    destruct models as [|m models].
    + destruct (request_failure (get url)) as [e|].
      * destruct Hshape as [_ ->]. now exists e.
      * destruct Hshape as (r & d & _ & _ & ->).
        destruct Hin as [Hin|[]]. discriminate Hin.
    + destruct (py_join (lit ", ") (m :: models)) as [names|];
        cbn [fst] in Hin.
      * destruct Hin as [Hin|[Hin|[Hin|[]]]]; discriminate Hin.
      * destruct Hin as [Hin|[]]; discriminate Hin.
  - intros d Hget. unfold AppV2.health_panel. now rewrite Hget.
  - intros d Hget. unfold AppV4.health_panel. now rewrite Hget.
  - intros n names data Hget. unfold AppV2.health_panel. rewrite Hget.
    change (JStr n :: map JStr names) with (map JStr (n :: names)).
    rewrite py_join_names. reflexivity.
Qed.

Lemma health_panel_reports_failures_witness :
  AppV2.health_panel (Some (lit "http://ollama:11434")) refused_get
  = ([SbError ([10060%N] ++ lit " Healthcheck failed: Connection refused")],
     Returns)
  /\ AppV2.health_panel (Some (lit "http://ollama:11434")) (mock_get tags_body)
     = ([SbSuccess ([9989%N] ++ lit " Ollama healthy");
         SbInfo (lit "Pulled: llama3.1:8b, llama2:13b");
         SbSelectbox (lit "Choose model")
           [JStr (lit "llama3.1:8b"); JStr (lit "llama2:13b")]],
        Returns).
Proof.
  split.
  - apply (proj1 (health_panel_reports_failures
                    (Some (lit "http://ollama:11434")) (fun _ => lit "?")
                    refused_get) refused).
    reflexivity.
  - apply (proj2 (proj2 (proj2 (proj2 (health_panel_reports_failures
                    (Some (lit "http://ollama:11434")) (fun _ => lit "?")
                    (mock_get tags_body)))))
             (lit "llama3.1:8b") [lit "llama2:13b"]
             (match json_loads tags_body with Some v => v | None => JNull end)).
    reflexivity.
Defined.

(** X17: when the pull request is answered, an HTTP error status gives the
    single item "ERROR: <text>"; otherwise every non-empty line of the
    response is yielded, decoded as text but not parsed, in the order
    received, followed by one "ERROR: <cause>" item if the stream breaks.
    The request goes to "<base_url>/api/pull" with the body
    {"name": <model_name>}. *)
Theorem pull_lines_pass_through (default_base_url : option pystr)
    (decode_utf8 : list N -> pystr)
    (post : pystr -> json -> outcome stream_response)
    (model_name : pystr) (base_url : option pystr) (r : stream_response) :
  post (fstr (py_or base_url default_base_url) ++ lit "/api/pull")
    (JObj [(lit "name", JStr model_name)]) = Responds r ->
  AppV2.pull_model_stream default_base_url decode_utf8 post model_name base_url
  = if is_http_error (s_status_code r)
    then ([lit "ERROR: " ++ s_http_error_msg r], Returns)
    else (map decode_utf8 (filter nonempty (lines r))
            ++ match broken r with
               | Some e => [lit "ERROR: " ++ message e]
               | None => []
               end,
          Returns).
Proof.
  intros H. unfold AppV2.pull_model_stream. rewrite H.
  unfold s_raise_for_status.
  destruct (is_http_error (s_status_code r)); [reflexivity|].
  apply pull_lines_items.
Qed.

Lemma pull_lines_pass_through_witness :
  AppV2.pull_model_stream (Some (lit "http://ollama:11434"))
    decode_ascii_replace
    (App.mock_post [lit "pulling manifest"; []; lit "not json"]) (lit "m") None
  = ([lit "pulling manifest"; lit "not json"], Returns).
Proof.
  apply (pull_lines_pass_through (Some (lit "http://ollama:11434"))
           decode_ascii_replace
           (App.mock_post [lit "pulling manifest"; []; lit "not json"])
           (lit "m") None
           {| s_status_code := 200; s_http_error_msg := [];
              lines := [lit "pulling manifest"; []; lit "not json"];
              broken := None |}).
  reflexivity.
Defined.

(** ** Records of other shapes *)

(** X18: a line that decodes to JSON that is not an object (a number, a
    string, a list, true, false or null) is not skipped: it ends the chat
    stream with TypeError or AttributeError, and nothing is yielded for
    it. *)
Theorem non_object_line_raises (b line : pystr) (data : json)
    (rest : list pystr) (tail : option RequestException) :
  App.classify line = App.Decoded data ->
  (forall d, data <> JObj d) ->
  exists e,
    (e = TypeError \/ e = AttributeError)
    /\ App.chat_record data = ([], App.Abort e)
    /\ App.chat_lines b (line :: rest) tail = ([], Raises e).
Proof.
  intros Hl Hd.
  assert (H : exists e, (e = TypeError \/ e = AttributeError)
                        /\ App.chat_record data = ([], App.Abort e)).
  { unfold App.chat_record.
    destruct data as [| | | |s|l|d]; cbn [py_contains];
      try (exists TypeError; split; [now left|reflexivity]).
    - destruct (str_contains (lit "error") s);
        [exists TypeError|exists AttributeError]; split; auto.
    - destruct (existsb _ l);
        [exists TypeError|exists AttributeError]; split; auto.
    - now destruct (Hd d). }
  destruct H as (e & He & Hr). exists e. repeat split; try assumption.
  rewrite (chat_lines_decoded b line data rest tail Hl). now rewrite Hr.
Qed.

Lemma non_object_line_raises_witness :
  exists e,
    (e = TypeError \/ e = AttributeError)
    /\ App.chat_record (JInt 5) = ([], App.Abort e)
    /\ App.chat_lines (lit "http://ollama:11434") [lit "5"; line_A] None
       = ([], Raises e).
Proof.
  apply (non_object_line_raises (lit "http://ollama:11434") (lit "5")
           (JInt 5) [line_A] None).
  - reflexivity.
  - discriminate.
Defined.

(** X19: a record without an error key and without a message (or whose
    message is an object without content) yields nothing; the stream then
    ends if the record has a true done flag and goes on otherwise.  A
    message that is not an object (null included) raises
    AttributeError. *)
Theorem record_without_content (d : dict) :
  dict_get (lit "error") d = None ->
  (dict_get (lit "message") d = None
   \/ (exists msg, dict_get (lit "message") d = Some (JObj msg)
                   /\ dict_get (lit "content") msg = None) ->
   App.chat_record (JObj d)
   = ([], match dict_get (lit "done") d with
          | Some dn => if truthy dn then App.Break else App.Continue
          | None => App.Continue
          end))
  /\ (forall m, dict_get (lit "message") d = Some m ->
        (forall msg, m <> JObj msg) ->
        App.chat_record (JObj d) = ([], App.Abort AttributeError)).
Proof.
  intros He. split.
  - intros [Hm | (msg & Hm & Hc)]; rewrite chat_record_plain by exact He;
      cbn [py_get]; rewrite Hm; cbn [py_get dict_get].
    + reflexivity.
    + rewrite Hc. reflexivity.
  - intros m Hm Hn. rewrite chat_record_plain by exact He.
    cbn [py_get]. rewrite Hm.
    destruct m; try reflexivity. now destruct (Hn d0).
Qed.

Lemma record_without_content_witness :
  App.chat_record (JObj [(lit "done", JBool true)]) = ([], App.Break)
  /\ App.chat_record (JObj [(lit "message", JNull)])
     = ([], App.Abort AttributeError).
Proof.
  split.
  - apply (proj1 (record_without_content [(lit "done", JBool true)] eq_refl)).
    now left.
  - apply (proj2 (record_without_content [(lit "message", JNull)] eq_refl)
             JNull eq_refl).
    discriminate.
Defined.

(** ** test-ollama.py *)

(** X20: the connection test never raises.  It returns True exactly when
    the version query gives an object with a "version", the tags query an
    object with "models", and the models have a length; it then prints the
    version and the number of models.  A refused connection prints
    "Connection refused - Ollama not accessible"; when the tags query
    fails the version line has already been printed.  The script ends with
    the success line exactly when the test returned True. *)
Theorem connection_test_outcome (base_url : option pystr)
    (str_other : json -> pystr) (str_exn : exn -> pystr)
    (get : pystr -> outcome response) :
  let test := TestOllama.test_ollama_connection base_url str_other str_exn get in
  let fetch := TestOllama.fetch base_url get in
  (snd test = true
   <-> exists version models n,
         fetch (lit "/api/version") (lit "version") = inr version
         /\ fetch (lit "/api/tags") (lit "models") = inr models
         /\ py_len models = Return n
         /\ fst test
            = [lit "Ollama version: " ++ TestOllama.py_str str_other version;
               lit "Available models: " ++ py_str_int n])
  /\ (forall e,
         get (fstr base_url ++ lit "/api/version") = Fails e ->
         kind e = ConnectionError ->
         test = ([lit "Connection refused - Ollama not accessible"], false))
  /\ (forall version e,
         fetch (lit "/api/version") (lit "version") = inr version ->
         fetch (lit "/api/tags") (lit "models") = inl e ->
         test = ([lit "Ollama version: " ++ TestOllama.py_str str_other version;
                  TestOllama.handler str_exn e], false))
  /\ last (TestOllama.main base_url str_other str_exn get) []
     = (if snd test
        then [9989%N] ++ lit " Ollama API connection successful!"
        else [10060%N] ++ lit " Connection issues persist").
Proof.
  intros test fetch.
  split; [|split; [|split]].
  - unfold test, TestOllama.test_ollama_connection. fold fetch.
    destruct (fetch (lit "/api/version") (lit "version")) as [e|version].
    { split; [discriminate|]. intros (v & ms & n & H & _). discriminate H. }
    destruct (fetch (lit "/api/tags") (lit "models")) as [e|models].
    { split; [discriminate|]. intros (v & ms & n & _ & H & _). discriminate H. }
    destruct (py_len models) as [n|e] eqn:Hlen.
    + split; [|reflexivity]. intros _. now exists version, models, n.
    + split; [discriminate|].
      intros (v & ms & n & _ & [= <-] & H & _). congruence.
  - intros e Hget Hk. unfold test, TestOllama.test_ollama_connection,
      TestOllama.fetch. rewrite Hget.
    destruct e as [k m]. cbn [kind] in Hk. subst k. reflexivity.
  - intros version e Hv Ht. unfold test, TestOllama.test_ollama_connection.
    fold fetch. now rewrite Hv, Ht.
  - unfold TestOllama.main. fold test.
    destruct test as [out ok]. cbn [snd]. apply last_last.
Qed.

Lemma connection_test_outcome_witness :
  TestOllama.test_ollama_connection (Some (lit "http://ollama:11434"))
    (fun _ => lit "?") (fun _ => lit "?") refused_get
  = ([lit "Connection refused - Ollama not accessible"], false)
  /\ TestOllama.test_ollama_connection (Some (lit "http://ollama:11434"))
       (fun _ => lit "?") (fun _ => lit "?")
       (fun url =>
          if str_eqb url (lit "http://ollama:11434/api/version")
          then mock_get (dq "{'version':'0.5.1'}") url
          else Fails {| kind := ReadTimeout; message := lit "timed out" |})
     = ([lit "Ollama version: 0.5.1"; lit "API error: timed out"], false).
Proof.
  split.
  - apply (proj1 (proj2 (connection_test_outcome
                    (Some (lit "http://ollama:11434"))
                    (fun _ => lit "?") (fun _ => lit "?") refused_get))
             refused);
      reflexivity.
  - apply (proj1 (proj2 (proj2 (connection_test_outcome
                    (Some (lit "http://ollama:11434"))
                    (fun _ => lit "?") (fun _ => lit "?")
                    (fun url =>
                       if str_eqb url (lit "http://ollama:11434/api/version")
                       then mock_get (dq "{'version':'0.5.1'}") url
                       else Fails {| kind := ReadTimeout;
                                     message := lit "timed out" |}))))
             (JStr (lit "0.5.1"))
             (TestOllama.Http {| kind := ReadTimeout;
                                 message := lit "timed out" |}));
      reflexivity.
Defined.

(** ** Further witnesses *)

Lemma deltas_are_never_empty_witness :
  ~ In (JStr [])
      (fst (App.stream_chat_ollama
              (App.mock_post [dq "{'message':{'content':''},'done':false}";
                              line_A; line_B])
              [] JNull (Some (lit "http://ollama:11434"))
              (FDec false 7 (-1)) 0)).
Proof.
  apply (proj1 (proj2 (deltas_are_never_empty
                  (App.mock_post [dq "{'message':{'content':''},'done':false}";
                                  line_A; line_B])
                  [] JNull (Some (lit "http://ollama:11434"))
                  (FDec false 7 (-1)) 0))).
Defined.

Lemma chat_submit_only_appends_witness :
  nth_error
    (fst (App.chat_submit (App.mock_post [line_A; line_B]) default_settings
            App.initial_messages (Some (lit "hi"))))
    (List.length App.initial_messages)
  = Some (App.message (lit "user") (lit "hi"))
  /\ fst (App.chat_submit (App.mock_post [line_A; line_B]) default_settings
            App.initial_messages (Some []))
     = App.initial_messages.
Proof.
  split.
  - apply (proj2 (proj2 (proj2 (chat_submit_only_appends
                    (App.mock_post [line_A; line_B]) default_settings
                    App.initial_messages (Some (lit "hi")))))
             (lit "hi") eq_refl).
    discriminate.
  - apply (proj1 (proj2 (proj2 (chat_submit_only_appends
                    (App.mock_post [line_A; line_B]) default_settings
                    App.initial_messages (Some []))))).
    now right.
Defined.
